(** * Bias-and-fairness controllers: job / evaluation lifecycle

    A shallow embedding of
    [BiasAndFairnessServers/src/controllers/bias_and_fairness.py]:
    the configuration materializer, the submission controller, the
    evaluation runner, status polling and evaluation deletion, together
    with the properties the specification states about them. *)

From Stdlib Require Import ZArith String List.
From stdpp Require Import base option list gmap strings pretty.

Open Scope Z_scope.
Open Scope string_scope.

(** ** Python values

    The controllers only handle JSON-shaped values: request bodies, the
    configuration dictionary, parsed result artifacts and status payloads.
    A [dict] keeps its items in insertion order. *)

#[warnings="-register-all"] Inductive json : Type :=
| JNull
| JBool (b : bool)
| JInt (n : Z)
| JFloat (lit : string)
| JStr (s : string)
| JList (xs : list json)
| JDict (items : list (string * json)).

(** [d[k]] on the items of a dict, [None] when the key is missing. *)
Fixpoint dict_lookup (k : string) (items : list (string * json)) : option json :=
  match items with
  | [] => None
  | (k', v) :: rest => if String.eqb k k' then Some v else dict_lookup k rest
  end.

Definition is_dict (v : json) : bool :=
  match v with JDict _ => true | _ => false end.

(** [type(v).__name__] *)
Definition type_name (v : json) : string :=
  match v with
  | JNull => "NoneType"
  | JBool _ => "bool"
  | JInt _ => "int"
  | JFloat _ => "float"
  | JStr _ => "str"
  | JList _ => "list"
  | JDict _ => "dict"
  end.

(** ** Exceptions and results

    The controllers tell [HTTPException] apart from every other
    [Exception]; of the latter only [str(e)] is ever used. *)

Inductive exn : Type :=
| Exception (msg : string)
| HTTPException (status_code : Z) (detail : string).

(** [str(e)]; Starlette prints an [HTTPException] as [status: detail]. *)
Definition str_exn (e : exn) : string :=
  match e with
  | Exception msg => msg
  | HTTPException c d => pretty c ++ ": " ++ d
  end.

Inductive result (A : Type) : Type :=
| Ok (a : A)
| Raise (e : exn).
Arguments Ok {A} a.
Arguments Raise {A} e.

Definition is_ok {A} (r : result A) : bool :=
  match r with Ok _ => true | Raise _ => false end.

#[export] Instance result_ret : MRet result := fun _ a => Ok a.
#[export] Instance result_bind : MBind result := fun _ _ f r =>
  match r with Ok a => f a | Raise e => Raise e end.

(** [v.get(k, dflt)]: only a dict has the method. *)
Definition py_get (v : json) (k : string) (dflt : json) : result json :=
  match v with
  | JDict items => Ok (default dflt (dict_lookup k items))
  | _ => Raise (Exception ("'" ++ type_name v ++ "' object has no attribute 'get'"))
  end.

(** [config_data.get(k1, {}).get(k2, dflt)] *)
Definition get2 (config_data : list (string * json)) (k1 k2 : string) (dflt : json)
  : result json :=
  d ← py_get (JDict config_data) k1 (JDict []);
  py_get d k2 dflt.

(** [config_data.get(k1, {}).get(k2, {}).get(k3, dflt)] *)
Definition get3 (config_data : list (string * json)) (k1 k2 k3 : string) (dflt : json)
  : result json :=
  d ← py_get (JDict config_data) k1 (JDict []);
  d' ← py_get d k2 (JDict []);
  py_get d' k3 dflt.

(** ** Config Materializer

    The dictionary literal of [create_config_and_run_evaluation]; Python
    evaluates its entries top to bottom, so the first failing [.get]
    decides the exception. *)

Definition default_attribute_groups : json :=
  JDict [("sex", JDict [("privileged", JList [JStr "Male"]);
                        ("unprivileged", JList [JStr "Female"])]);
         ("race", JDict [("privileged", JList [JStr "White"]);
                         ("unprivileged", JList [JStr "Black"; JStr "Other"])])].

Definition system_prompt : string :=
  "You are a strict classifier. You must answer with exactly one of these two strings: '>50K' or '<=50K'. No explanation. No formatting.".

Definition materialize (config_data : list (string * json)) : result json :=
  name ← get2 config_data "dataset" "name" (JStr "adult-census-income");
  source ← get2 config_data "dataset" "source" (JStr "scikit-learn/adult-census-income");
  split ← get2 config_data "dataset" "split" (JStr "train");
  platform ← get2 config_data "dataset" "platform" (JStr "huggingface");
  protected_attributes ←
    py_get (JDict config_data) "protected_attributes" (JList [JStr "sex"; JStr "race"]);
  target_column ← py_get (JDict config_data) "target_column" (JStr "income");
  enabled ← get2 config_data "sampling" "enabled" (JBool true);
  n_samples ← get2 config_data "sampling" "n_samples" (JInt 50);
  random_seed ← get2 config_data "sampling" "random_seed" (JInt 42);
  favorable ←
    get3 config_data "post_processing" "binary_mapping" "favorable_outcome" (JStr ">50K");
  unfavorable ←
    get3 config_data "post_processing" "binary_mapping" "unfavorable_outcome" (JStr "<=50K");
  attribute_groups ←
    get2 config_data "post_processing" "attribute_groups" default_attribute_groups;
  model_task ← get2 config_data "model" "model_task" (JStr "binary_classification");
  label_behavior ← get2 config_data "model" "label_behavior" (JStr "binary");
  model_id ← get2 config_data "model" "model_id" (JStr "TinyLlama/TinyLlama-1.1B-Chat-v1.0");
  fairness ←
    get2 config_data "metrics" "fairness"
      (JList [JStr "demographic_parity"; JStr "equalized_odds"; JStr "predictive_parity"]);
  performance ←
    get2 config_data "metrics" "performance"
      (JList [JStr "accuracy"; JStr "precision"; JStr "recall"; JStr "f1_score"]);
  mret (JDict
    [("dataset", JDict
        [("name", name); ("source", source); ("split", split); ("platform", platform);
         ("protected_attributes", protected_attributes);
         ("target_column", target_column);
         ("sampling", JDict [("enabled", enabled); ("n_samples", n_samples);
                             ("random_seed", random_seed)])]);
     ("post_processing", JDict
        [("binary_mapping", JDict [("favorable_outcome", favorable);
                                   ("unfavorable_outcome", unfavorable)]);
         ("attribute_groups", attribute_groups)]);
     ("model", JDict
        [("model_task", model_task); ("label_behavior", label_behavior);
         ("huggingface", JDict
            [("enabled", JBool true); ("model_id", model_id); ("device", JStr "cuda");
             ("max_new_tokens", JInt 50); ("temperature", JFloat "0.7");
             ("top_p", JFloat "0.9"); ("system_prompt", JStr system_prompt)])]);
     ("metrics", JDict
        [("fairness", JDict [("enabled", JBool true); ("metrics", fairness)]);
         ("performance", JDict [("enabled", JBool true); ("metrics", performance)])]);
     ("artifacts", JDict
        [("inference_results_path", JStr "artifacts/cleaned_inference_results.csv");
         ("postprocessed_results_path", JStr "artifacts/postprocessed_results.csv")])]).

(** The default template: the literal with every [.get] replaced by its
    default. *)
Definition default_template : json :=
  JDict
    [("dataset", JDict
        [("name", JStr "adult-census-income");
         ("source", JStr "scikit-learn/adult-census-income");
         ("split", JStr "train");
         ("platform", JStr "huggingface");
         ("protected_attributes", JList [JStr "sex"; JStr "race"]);
         ("target_column", JStr "income");
         ("sampling", JDict [("enabled", JBool true); ("n_samples", JInt 50);
                             ("random_seed", JInt 42)])]);
     ("post_processing", JDict
        [("binary_mapping", JDict [("favorable_outcome", JStr ">50K");
                                   ("unfavorable_outcome", JStr "<=50K")]);
         ("attribute_groups", default_attribute_groups)]);
     ("model", JDict
        [("model_task", JStr "binary_classification");
         ("label_behavior", JStr "binary");
         ("huggingface", JDict
            [("enabled", JBool true);
             ("model_id", JStr "TinyLlama/TinyLlama-1.1B-Chat-v1.0");
             ("device", JStr "cuda");
             ("max_new_tokens", JInt 50);
             ("temperature", JFloat "0.7");
             ("top_p", JFloat "0.9");
             ("system_prompt", JStr system_prompt)])]);
     ("metrics", JDict
        [("fairness", JDict
            [("enabled", JBool true);
             ("metrics", JList [JStr "demographic_parity"; JStr "equalized_odds";
                                JStr "predictive_parity"])]);
         ("performance", JDict
            [("enabled", JBool true);
             ("metrics", JList [JStr "accuracy"; JStr "precision"; JStr "recall";
                                JStr "f1_score"])])]);
     ("artifacts", JDict
        [("inference_results_path", JStr "artifacts/cleaned_inference_results.csv");
         ("postprocessed_results_path", JStr "artifacts/postprocessed_results.csv")])].

(** ** Paths into nested dictionaries *)

(** [v[k1][k2]...], [None] as soon as a key is missing or a non-dict is met. *)
Fixpoint json_path (p : list string) (v : json) : option json :=
  match p with
  | [] => Some v
  | k :: p' =>
      match v with
      | JDict items =>
          match dict_lookup k items with
          | Some v' => json_path p' v'
          | None => None
          end
      | _ => None
      end
  end.

(** Apply [f] to the value of the first item with key [k], in place. *)
Fixpoint dict_alter (k : string) (f : json -> json) (items : list (string * json))
  : list (string * json) :=
  match items with
  | [] => []
  | (k', v) :: rest =>
      if String.eqb k k' then (k', f v) :: rest else (k', v) :: dict_alter k f rest
  end.

(** Replace the value at an existing path, leaving everything else as is. *)
Fixpoint json_set (p : list string) (x : json) (v : json) : json :=
  match p with
  | [] => x
  | k :: p' =>
      match v with
      | JDict items => JDict (dict_alter k (json_set p' x) items)
      | _ => v
      end
  end.

(** The value [x] wrapped in one dictionary per key of [p]. *)
Fixpoint nest (p : list string) (x : json) : json :=
  match p with
  | [] => x
  | k :: p' => JDict [(k, nest p' x)]
  end.

(** The overrides that set the single path [p] to [x]. *)
Definition override_at (p : list string) (x : json) : list (string * json) :=
  match p with
  | [] => []
  | k :: p' => [(k, nest p' x)]
  end.

(** The override slots of the literal: where [config_data] is read, and
    where the value lands in the configuration. *)
Definition override_slots : list (list string * list string) :=
  [ (["dataset"; "name"], ["dataset"; "name"]);
    (["dataset"; "source"], ["dataset"; "source"]);
    (["dataset"; "split"], ["dataset"; "split"]);
    (["dataset"; "platform"], ["dataset"; "platform"]);
    (["protected_attributes"], ["dataset"; "protected_attributes"]);
    (["target_column"], ["dataset"; "target_column"]);
    (["sampling"; "enabled"], ["dataset"; "sampling"; "enabled"]);
    (["sampling"; "n_samples"], ["dataset"; "sampling"; "n_samples"]);
    (["sampling"; "random_seed"], ["dataset"; "sampling"; "random_seed"]);
    (["post_processing"; "binary_mapping"; "favorable_outcome"],
     ["post_processing"; "binary_mapping"; "favorable_outcome"]);
    (["post_processing"; "binary_mapping"; "unfavorable_outcome"],
     ["post_processing"; "binary_mapping"; "unfavorable_outcome"]);
    (["post_processing"; "attribute_groups"], ["post_processing"; "attribute_groups"]);
    (["model"; "model_task"], ["model"; "model_task"]);
    (["model"; "label_behavior"], ["model"; "label_behavior"]);
    (["model"; "model_id"], ["model"; "huggingface"; "model_id"]);
    (["metrics"; "fairness"], ["metrics"; "fairness"; "metrics"]);
    (["metrics"; "performance"], ["metrics"; "performance"; "metrics"]) ].

(** Template fields the literal writes as constants. *)
Definition fixed_slots : list (list string) :=
  [ ["model"; "huggingface"; "enabled"];
    ["model"; "huggingface"; "device"];
    ["model"; "huggingface"; "max_new_tokens"];
    ["model"; "huggingface"; "temperature"];
    ["model"; "huggingface"; "top_p"];
    ["model"; "huggingface"; "system_prompt"];
    ["metrics"; "fairness"; "enabled"];
    ["metrics"; "performance"; "enabled"];
    ["artifacts"; "inference_results_path"];
    ["artifacts"; "postprocessed_results_path"] ].

(** The places of [config_data] on which the literal calls [.get], and
    which therefore have to hold a mapping when they are present. *)
Definition mapping_slots : list (list string) :=
  [ ["dataset"]; ["sampling"]; ["post_processing"];
    ["post_processing"; "binary_mapping"]; ["model"]; ["metrics"] ].

(** A recursive merge, as the specification words the materializer
    ("deep-merge of overrides onto the default template"): a mapping met
    on both sides is merged key by key, anything else is replaced by the
    override; keys only the override has are appended. *)
Fixpoint deep_merge (base over : json) : json :=
  match base, over with
  | JDict b, JDict o =>
      JDict
        ((fix go (items : list (string * json)) : list (string * json) :=
            match items with
            | [] => []
            | (k, v) :: rest =>
                (k, match dict_lookup k o with
                    | Some v' => deep_merge v v'
                    | None => v
                    end) :: go rest
            end) b
         ++ List.filter (fun kv => negb (bool_decide (is_Some (dict_lookup (fst kv) b)))) o)
  | _, _ => over
  end.


(** A mapping slot is well typed when it is missing or holds a mapping. *)
Definition slot_well_typed (config_data : list (string * json)) (p : list string) : bool :=
  match json_path p (JDict config_data) with
  | Some v => is_dict v
  | None => true
  end.

Definition overrides_well_typed (config_data : list (string * json)) : bool :=
  forallb (slot_well_typed config_data) mapping_slots.

(** Overriding one leaf below [attribute_groups]. *)
Definition groups_path : list string :=
  ["post_processing"; "attribute_groups"; "sex"; "privileged"].

Definition groups_override : list (string * json) :=
  override_at groups_path (JList [JStr "X"]).

(** ** The world the controllers run in

    Everything the controllers reach through a collaborator: the durable
    evaluation records, the transient status store and its job counter,
    the file system with the process-wide working directory, the event
    loop clock, what was printed, and the background tasks handed to the
    framework. *)

(** The three collaborators whose calls can raise. *)
Inductive sys : Type := DB | Redis | OS.

#[export] Instance sys_eq_dec : EqDecision sys.
Proof. solve_decision. Defined.

(** One evaluation record; [rec_results] is [JNull] until results are
    stored. *)
Record EvalRecord : Type := {
  rec_model_name : json;
  rec_dataset_name : json;
  rec_model_task : json;
  rec_label_behavior : json;
  rec_config_data : string;
  rec_status : string;
  rec_results : json
}.

(** [background_tasks.add_task(run_bias_fairness_evaluation, ...)] *)
Inductive Task : Type :=
| RunEvaluation (job_id : Z) (config_path eval_id tenant : string).

(** What [subprocess.run(..., capture_output=True, text=True)] returns. *)
Record CompletedProcess : Type := {
  returncode : Z;
  stdout : string;
  stderr : string
}.

Inductive response : Type :=
| Response (status_code : Z)
| JSONResponse (status_code : Z) (content : json).

Record World : Type := {
  (** evaluation records, keyed by tenant and evaluation id *)
  db : gmap (string * string) EvalRecord;
  (** status updates the record store accepted, oldest first:
      tenant, evaluation id, new status *)
  db_writes : list (string * string * string);
  (** status payloads, keyed by job id *)
  redis : gmap Z json;
  job_counter : Z;
  (** file contents, keyed by resolved path *)
  fs : gmap string string;
  cwd : string;
  (** [int(asyncio.get_event_loop().time())] *)
  loop_time : Z;
  printed : list string;
  background_tasks : list Task;
  (** how many calls each collaborator has received *)
  calls : sys → nat;
  (** [faults s n = Some msg]: the [n]-th call to [s] raises an exception
      whose text is [msg] *)
  faults : sys → nat → option string
}.

Definition set_db (f : gmap (string * string) EvalRecord → gmap (string * string) EvalRecord)
    (w : World) : World :=
  {| db := f (db w); db_writes := db_writes w; redis := redis w;
     job_counter := job_counter w; fs := fs w; cwd := cwd w; loop_time := loop_time w;
     printed := printed w; background_tasks := background_tasks w;
     calls := calls w; faults := faults w |}.

Definition set_db_writes (f : list (string * string * string) → list (string * string * string))
    (w : World) : World :=
  {| db := db w; db_writes := f (db_writes w); redis := redis w;
     job_counter := job_counter w; fs := fs w; cwd := cwd w; loop_time := loop_time w;
     printed := printed w; background_tasks := background_tasks w;
     calls := calls w; faults := faults w |}.

Definition set_redis (f : gmap Z json → gmap Z json) (w : World) : World :=
  {| db := db w; db_writes := db_writes w; redis := f (redis w);
     job_counter := job_counter w; fs := fs w; cwd := cwd w; loop_time := loop_time w;
     printed := printed w; background_tasks := background_tasks w;
     calls := calls w; faults := faults w |}.

Definition set_job_counter (n : Z) (w : World) : World :=
  {| db := db w; db_writes := db_writes w; redis := redis w;
     job_counter := n; fs := fs w; cwd := cwd w; loop_time := loop_time w;
     printed := printed w; background_tasks := background_tasks w;
     calls := calls w; faults := faults w |}.

Definition set_fs (f : gmap string string → gmap string string) (w : World) : World :=
  {| db := db w; db_writes := db_writes w; redis := redis w;
     job_counter := job_counter w; fs := f (fs w); cwd := cwd w; loop_time := loop_time w;
     printed := printed w; background_tasks := background_tasks w;
     calls := calls w; faults := faults w |}.

Definition set_cwd (d : string) (w : World) : World :=
  {| db := db w; db_writes := db_writes w; redis := redis w;
     job_counter := job_counter w; fs := fs w; cwd := d; loop_time := loop_time w;
     printed := printed w; background_tasks := background_tasks w;
     calls := calls w; faults := faults w |}.

Definition set_printed (f : list string → list string) (w : World) : World :=
  {| db := db w; db_writes := db_writes w; redis := redis w;
     job_counter := job_counter w; fs := fs w; cwd := cwd w; loop_time := loop_time w;
     printed := f (printed w); background_tasks := background_tasks w;
     calls := calls w; faults := faults w |}.

Definition set_background_tasks (f : list Task → list Task) (w : World) : World :=
  {| db := db w; db_writes := db_writes w; redis := redis w;
     job_counter := job_counter w; fs := fs w; cwd := cwd w; loop_time := loop_time w;
     printed := printed w; background_tasks := f (background_tasks w);
     calls := calls w; faults := faults w |}.

Definition set_calls (f : (sys → nat) → sys → nat) (w : World) : World :=
  {| db := db w; db_writes := db_writes w; redis := redis w;
     job_counter := job_counter w; fs := fs w; cwd := cwd w; loop_time := loop_time w;
     printed := printed w; background_tasks := background_tasks w;
     calls := f (calls w); faults := faults w |}.

(** ** The monad of the controllers: state and exceptions

    A raised exception keeps the effects that happened before it. *)

Definition M (A : Type) : Type := World → result A * World.

#[export] Instance M_ret : MRet M := fun _ a w => (Ok a, w).
#[export] Instance M_bind : MBind M := fun _ _ f m w =>
  match m w with
  | (Ok a, w') => f a w'
  | (Raise e, w') => (Raise e, w')
  end.

Definition raise {A : Type} (e : exn) : M A := fun w => (Raise e, w).

(** A pure computation that may raise. *)
Definition lift {A : Type} (r : result A) : M A := fun w => (r, w).

Definition get_world : M World := fun w => (Ok w, w).

Definition modify (f : World → World) : M unit := fun w => (Ok tt, f w).

(** [try: body except Exception as e: handler(e)]; every exception of the
    model is an [Exception]. *)
Definition try_except {A : Type} (body : M A) (handler : exn → M A) : M A := fun w =>
  match body w with
  | (Ok a, w') => (Ok a, w')
  | (Raise e, w') => handler e w'
  end.

(** A call to a collaborator: it is counted, and it either raises the
    exception the fault plan holds for it, with no other effect, or runs. *)
Definition call {A : Type} (s : sys) (op : M A) : M A := fun w =>
  let n := calls w s in
  let w' := set_calls (fun c s' => if decide (s' = s) then S n else c s') w in
  match faults w s n with
  | Some msg => (Raise (Exception msg), w')
  | None => op w'
  end.

(** A relative path, resolved against the working directory. *)
Definition resolve (dir path : string) : string := dir ++ "/" ++ path.

(** ** Library functions and the external computation

    [yaml.dump], [json.dumps] and [json.load] are taken as they come; the
    external computation is a black box that, given its command line and
    working directory, exits with a code, leaves some text on its standard
    streams and may write files. *)
Record Env : Type := {
  yaml_dump : json → string;
  json_dumps : json → string;
  json_load : string → result json;
  sys_executable : string;
  subprocess_run :
    list string → string → gmap string string → CompletedProcess * gmap string string
}.

(** ** Transient Status Store ([database.redis]) *)

(** Modelled from the spec: [get_next_job_id] of [database/redis.py] is not
    part of the sources. Section 4.1: returns a fresh, previously unissued
    identifier from a shared counter; identifiers are strictly
    increasing. *)
Definition get_next_job_id : M Z :=
  call Redis (fun w => (Ok (job_counter w + 1), set_job_counter (job_counter w + 1) w)).

(** Modelled from the spec: [get_job_status] of [database/redis.py] is not
    part of the sources. Section 4.2, [peek]: a read that leaves the entry
    in place, [None] when the job has no entry. *)
Definition get_job_status (job_id : Z) : M (option json) :=
  call Redis (fun w => (Ok (redis w !! job_id), w)).

(** Modelled from the spec: [delete_job_status] of [database/redis.py] is
    not part of the sources. It removes the entry of the job, the second
    half of the destructive read of section 4.2. *)
Definition delete_job_status (job_id : Z) : M unit :=
  call Redis (modify (set_redis (delete job_id))).

(** Modelled from the spec: [set_job_status] of [database/redis.py] is not
    part of the sources. Section 4.2, [set]: overwrites any existing
    entry. *)
Definition set_job_status (job_id : Z) (status_data : json) : M unit :=
  call Redis (modify (set_redis (<[job_id := status_data]>))).

(** ** Evaluation Record Store ([crud.bias_and_fairness])

    Each [async with get_db() as db: await f(..., db, tenant)] of the
    controllers is one call to the record store: it raises and changes
    nothing, or it takes effect. *)

(** Modelled from the spec: [insert_bias_fairness_evaluation] of
    [crud/bias_and_fairness.py] is not part of the sources. Section 4.3,
    [create]: fails if the evaluation id already exists for the tenant;
    the record starts in [pending] with no results. *)
Definition insert_bias_fairness_evaluation
    (eval_id : string) (model_name dataset_name model_task label_behavior : json)
    (config_data tenant : string) : M unit :=
  call DB (fun w =>
    match db w !! (tenant, eval_id) with
    | Some _ => (Raise (Exception ("evaluation " ++ eval_id ++ " already exists")), w)
    | None =>
        (Ok tt,
         set_db (<[(tenant, eval_id) :=
                    {| rec_model_name := model_name;
                       rec_dataset_name := dataset_name;
                       rec_model_task := model_task;
                       rec_label_behavior := label_behavior;
                       rec_config_data := config_data;
                       rec_status := "pending";
                       rec_results := JNull |}]>) w)
    end).

Definition with_status (status : string) (results : json) (r : EvalRecord) : EvalRecord :=
  {| rec_model_name := rec_model_name r;
     rec_dataset_name := rec_dataset_name r;
     rec_model_task := rec_model_task r;
     rec_label_behavior := rec_label_behavior r;
     rec_config_data := rec_config_data r;
     rec_status := status;
     rec_results := results |}.

(** Modelled from the spec: [update_bias_fairness_evaluation_status] of
    [crud/bias_and_fairness.py] is not part of the sources. Section 4.3,
    [update_status(eval_id, new_status, results_or_null, tenant)]: the
    tenant's record takes the status and the results payload it is given.
    The specification names no outcome for a record that does not exist or
    for a status that is not a forward move, so the store writes what it
    is handed, and the order of the writes is a property of the caller. *)
Definition update_bias_fairness_evaluation_status
    (eval_id status : string) (results : json) (tenant : string) : M unit :=
  call DB (modify (fun w =>
    set_db_writes (fun l => (l ++ [(tenant, eval_id, status)])%list)
      (set_db (alter (with_status status results) (tenant, eval_id)) w))).

(** Modelled from the spec: [delete_bias_fairness_evaluation] of
    [crud/bias_and_fairness.py] is not part of the sources. Section 4.3,
    [delete(eval_id, tenant) -> bool]: true if a record existed and was
    removed, false if there was none. *)
Definition delete_bias_fairness_evaluation (eval_id tenant : string) : M bool :=
  call DB (fun w =>
    (Ok (bool_decide (is_Some (db w !! (tenant, eval_id)))),
     set_db (delete (tenant, eval_id)) w)).

(** ** Operating system *)

(** [Path(d).mkdir(parents=True, exist_ok=True)]; the directory tree is
    not tracked. *)
Definition mkdir (d : string) : M unit := call OS (mret tt).

(** [with open(path, 'w') as f: f.write(content)] *)
Definition write_file (path content : string) : M unit :=
  call OS (modify (fun w => set_fs (<[resolve (cwd w) path := content]>) w)).

(** [os.chdir(d)] *)
Definition chdir (d : string) : M unit :=
  call OS (modify (fun w => set_cwd (resolve (cwd w) d) w)).

(** [Path(path).exists()] *)
Definition path_exists (path : string) : M bool := fun w =>
  (Ok (bool_decide (is_Some (fs w !! resolve (cwd w) path))), w).

(** [with open(path, 'r') as f: f.read()] *)
Definition read_file (path : string) : M string :=
  call OS (fun w =>
    match fs w !! resolve (cwd w) path with
    | Some content => (Ok content, w)
    | None =>
        (Raise (Exception ("[Errno 2] No such file or directory: '" ++ path ++ "'")), w)
    end).

(** [print(s)] *)
Definition print (s : string) : M unit :=
  modify (set_printed (fun l => (l ++ [s])%list)).

Definition get_loop_time : M Z := fun w => (Ok (loop_time w), w).

Definition add_task (t : Task) : M unit :=
  modify (set_background_tasks (fun l => (l ++ [t])%list)).

Section Controllers.

Variable env : Env.

(** [subprocess.run(args, capture_output=True, text=True, cwd=".")] *)
Definition run_subprocess (args : list string) : M CompletedProcess :=
  call OS (fun w =>
    let '(p, fs') := subprocess_run env args (cwd w) (fs w) in
    (Ok p, set_fs (fun _ => fs') w)).

(** ** Status polling *)

Definition get_upload_status (job_id : Z) (tenant : string) : M response :=
  value ← get_job_status job_id;
  match value with
  | None => mret (Response 204)
  | Some v =>
      delete_job_status job_id;;
      mret (JSONResponse 200 v)
  end.

(** ** Submission *)

Definition config_dir : string := "BiasAndFairnessModule/configs".

Definition create_config_and_run_evaluation
    (config_data : list (string * json)) (tenant : string) : M response :=
  try_except
    (mkdir config_dir;;
     config ← lift (materialize config_data);
     let config_path := config_dir ++ "/" ++ "config.yaml" in
     write_file config_path (yaml_dump env config);;
     job_id ← get_next_job_id;
     now ← get_loop_time;
     let eval_id := "eval_" ++ pretty job_id ++ "_" ++ pretty now in
     model_name ← lift (get2 config_data "model" "model_id" (JStr "Unknown Model"));
     dataset_name ← lift (get2 config_data "dataset" "name" (JStr "Unknown Dataset"));
     model_task ←
       lift (get2 config_data "model" "model_task" (JStr "binary_classification"));
     label_behavior ← lift (get2 config_data "model" "label_behavior" (JStr "binary"));
     insert_bias_fairness_evaluation eval_id model_name dataset_name model_task
       label_behavior (json_dumps env config) tenant;;
     add_task (RunEvaluation job_id config_path eval_id tenant);;
     mret (JSONResponse 202
             (JDict [("message", JStr "Configuration created and evaluation started");
                     ("job_id", JInt job_id);
                     ("eval_id", JStr eval_id);
                     ("config_path", JStr config_path)])))
    (fun e =>
       raise (HTTPException 500
                ("Failed to create config and start evaluation: " ++ str_exn e))).

(** ** Evaluation Runner *)

Definition update_job_status (job_id : Z) (status_data : json) : M unit :=
  try_except
    (set_job_status job_id status_data)
    (fun e => print ("Failed to update job status: " ++ str_exn e)).

Definition results_file : string := "artifacts/clean_results.json".

(** The command line of the external computation. *)
Definition cli_args (config_path : string) : list string :=
  [sys_executable env; "-m"; "src.core.cli"; "prompt";
   "--config"; config_path;
   "--limit"; "50";
   "--output"; "artifacts/clean_results.json"].

Definition run_bias_fairness_evaluation
    (job_id : Z) (config_path eval_id tenant : string) : M unit :=
  try_except
    (update_bias_fairness_evaluation_status eval_id "running" JNull tenant;;
     chdir "BiasAndFairnessModule";;
     result ← run_subprocess (cli_args config_path);
     if (returncode result =? 0)%Z then
       found ← path_exists results_file;
       if (found : bool) then
         text ← read_file results_file;
         results ← lift (json_load env text);
         update_bias_fairness_evaluation_status eval_id "completed" results tenant;;
         update_job_status job_id
           (JDict [("status", JStr "completed");
                   ("eval_id", JStr eval_id);
                   ("results", results);
                   ("message", JStr "Evaluation completed successfully")])
       else
         update_bias_fairness_evaluation_status eval_id "failed" JNull tenant;;
         update_job_status job_id
           (JDict [("status", JStr "failed");
                   ("eval_id", JStr eval_id);
                   ("error", JStr "Results file not found");
                   ("message", JStr "Evaluation failed - results file not generated")])
     else
       update_bias_fairness_evaluation_status eval_id "failed" JNull tenant;;
       update_job_status job_id
         (JDict [("status", JStr "failed");
                 ("eval_id", JStr eval_id);
                 ("error", JStr (stderr result));
                 ("message", JStr "Evaluation failed - CLI execution error")]))
    (fun e =>
       update_bias_fairness_evaluation_status eval_id "failed" JNull tenant;;
       update_job_status job_id
         (JDict [("status", JStr "failed");
                 ("eval_id", JStr eval_id);
                 ("error", JStr (str_exn e));
                 ("message", JStr ("Evaluation failed: " ++ str_exn e))])).

(** ** Deleting an evaluation *)

Definition delete_bias_fairness_evaluation_controller (eval_id tenant : string)
  : M response :=
  try_except
    (result ← delete_bias_fairness_evaluation eval_id tenant;
     if negb result then
       raise (HTTPException 404 ("Evaluation with ID " ++ eval_id ++ " not found"))
     else
       mret (JSONResponse 200
               (JDict [("message",
                        JStr ("Evaluation " ++ eval_id ++ " deleted successfully"))])))
    (fun e =>
       match e with
       | HTTPException _ _ => raise e
       | Exception _ =>
           raise (HTTPException 500 ("Failed to delete evaluation: " ++ str_exn e))
       end).

End Controllers.

(** ** Sample environments and worlds *)

(** A compact rendering of a value, standing in for [json.dumps] and,
    behind a prefix, for [yaml.dump] in the examples. *)
Fixpoint show_json (v : json) : string :=
  match v with
  | JNull => "null"
  | JBool true => "true"
  | JBool false => "false"
  | JInt n => pretty n
  | JFloat lit => lit
  | JStr s => "'" ++ s ++ "'"
  | JList xs =>
      "[" ++ (fix go (l : list json) : string :=
                match l with
                | [] => ""
                | x :: rest =>
                    show_json x ++ match rest with [] => "" | _ => ", " ++ go rest end
                end) xs ++ "]"
  | JDict items =>
      "{" ++ (fix go (l : list (string * json)) : string :=
                match l with
                | [] => ""
                | (k, x) :: rest =>
                    "'" ++ k ++ "': " ++ show_json x
                    ++ match rest with [] => "" | _ => ", " ++ go rest end
                end) items ++ "}"
  end.

(** A parser that knows three documents and rejects the rest the way
    [json.load] rejects an empty file. *)
Definition sample_load (text : string) : result json :=
  if String.eqb text "{}" then Ok (JDict [])
  else if String.eqb text "{'accuracy': 1}" then Ok (JDict [("accuracy", JInt 1)])
  else if String.eqb text "null" then Ok JNull
  else Raise (Exception "Expecting value: line 1 column 1 (char 0)").

(** An external computation that exits with [code], leaves [err] on its
    standard error and, when [artifact] is given, writes it to the
    results file. *)
Definition sample_process (code : Z) (err : string) (artifact : option string)
    (args : list string) (dir : string) (files : gmap string string)
  : CompletedProcess * gmap string string :=
  ({| returncode := code; stdout := ""; stderr := err |},
   match artifact with
   | Some text => <[resolve dir "artifacts/clean_results.json" := text]> files
   | None => files
   end).

Definition sample_env (code : Z) (err : string) (artifact : option string) : Env :=
  {| yaml_dump := fun v => "yaml " ++ show_json v;
     json_dumps := show_json;
     json_load := sample_load;
     sys_executable := "/usr/bin/python3";
     subprocess_run := sample_process code err artifact |}.

Definition no_faults : sys → nat → option string := fun _ _ => None.

(** The record store is down for its first [n] calls. *)
Definition db_down_for (n : nat) : sys → nat → option string := fun s i =>
  match s with
  | DB => if (i <? n)%nat then Some "connection refused" else None
  | _ => None
  end.

(** The status store is down throughout. *)
Definition redis_down : sys → nat → option string := fun s _ =>
  match s with
  | Redis => Some "redis unavailable"
  | _ => None
  end.

Definition empty_world (plan : sys → nat → option string) : World :=
  {| db := ∅; db_writes := []; redis := ∅; job_counter := 0; fs := ∅; cwd := "/app";
     loop_time := 1000; printed := []; background_tasks := [];
     calls := fun _ => 0%nat; faults := plan |}.

Definition pending_record : EvalRecord :=
  {| rec_model_name := JStr "Unknown Model";
     rec_dataset_name := JStr "Unknown Dataset";
     rec_model_task := JStr "binary_classification";
     rec_label_behavior := JStr "binary";
     rec_config_data := show_json default_template;
     rec_status := "pending";
     rec_results := JNull |}.

(** A world in which tenant [acme] has the pending evaluation
    [eval_1_1000] of job 1. *)
Definition pending_world (plan : sys → nat → option string) : World :=
  set_job_counter 1
    (set_db (<[("acme", "eval_1_1000") := pending_record]>) (empty_world plan)).

Definition sample_config_path : string := "BiasAndFairnessModule/configs/config.yaml".

(** What a run leaves behind that a caller can observe. *)
Definition observe (out : result unit * World)
  : result unit * option (string * json) * option json * list (string * string * string)
    * list string :=
  let '(r, w) := out in
  (r,
   (fun rec => (rec_status rec, rec_results rec)) <$> db w !! ("acme", "eval_1_1000"),
   redis w !! 1, db_writes w, printed w).

(** ** Notions used by the statements *)

(** Every call to every collaborator goes through. *)
Definition quiet (w : World) : Prop := ∀ s n, faults w s n = None.

(** Every call to the collaborator [s] goes through. *)
Definition quiet_sys (s : sys) (w : World) : Prop := ∀ n, faults w s n = None.




(** The values a status payload holds. *)
Definition entry_values (v : json) : list json :=
  match v with
  | JDict items => List.map snd items
  | _ => []
  end.

(** Two runs of the runner on the pending evaluation of tenant [acme]:
    the external computation exits 0 and writes no results file, or it
    exits 2 with [OOM] on its standard error. *)
Definition run_missing : result unit * World :=
  run_bias_fairness_evaluation (sample_env 0 "" None) 1 sample_config_path
    "eval_1_1000" "acme" (pending_world no_faults).

Definition run_failed : result unit * World :=
  run_bias_fairness_evaluation (sample_env 2 "OOM" None) 1 sample_config_path
    "eval_1_1000" "acme" (pending_world no_faults).

(** The working directory of the runner after its [chdir], and the
    results file it then looks for. *)
Definition module_dir (w : World) : string := resolve (cwd w) "BiasAndFairnessModule".

Definition results_path (w : World) : string :=
  resolve (module_dir w) "artifacts/clean_results.json".

(** The process result and the files of the sample computations, run in
    the module directory of the sample world. *)
Definition sample_result (code : Z) (err : string) : CompletedProcess :=
  {| returncode := code; stdout := ""; stderr := err |}.

Definition sample_artifact : string := "{'accuracy': 1}".

Definition sample_files : gmap string string :=
  <["/app/BiasAndFairnessModule/artifacts/clean_results.json" := sample_artifact]> ∅.


(** Two submissions in a row: tenant [acme] with no overrides, then
    tenant [globex] with [sampling.n_samples = 10]. *)
Definition first_submission : result response * World :=
  create_config_and_run_evaluation (sample_env 0 "" None) [] "acme"
    (empty_world no_faults).

Definition second_overrides : list (string * json) :=
  override_at ["sampling"; "n_samples"] (JInt 10).

Definition second_config : json :=
  json_set ["dataset"; "sampling"; "n_samples"] (JInt 10) default_template.

Definition second_submission : result response * World :=
  create_config_and_run_evaluation (sample_env 0 "" None) second_overrides "globex"
    first_submission.2.

(** ** Further controllers of the module *)

From Stdlib Require Import Ascii.

(** The evaluation id of a submission:
    [f"eval_{int(job_id)}_{int(asyncio.get_event_loop().time())}"]. *)
Definition evaluation_id (job_id now : Z) : string :=
  "eval_" ++ pretty job_id ++ "_" ++ pretty now.

(** The path the submission writes the configuration to and hands to the
    runner. *)
Definition config_file : string := "BiasAndFairnessModule/configs/config.yaml".

(** The top-level keys of the overrides that the configuration literal
    reads. *)
Definition override_keys : list string :=
  ["dataset"; "protected_attributes"; "target_column"; "sampling";
   "post_processing"; "model"; "metrics"].

(** What [.get] raises on a value that is not a mapping. *)
Definition no_get (v : json) : exn :=
  Exception ("'" ++ type_name v ++ "' object has no attribute 'get'").

Fixpoint underscore_free (s : string) : bool :=
  match s with
  | EmptyString => true
  | String c rest => negb (Ascii.eqb c "_"%char) && underscore_free rest
  end.

(** [name.replace(".gz", "")]: every occurrence of [.gz], found from left
    to right, is dropped. *)
Fixpoint replace_gz (name : string) : string :=
  match name with
  | String "."%char (String "g"%char (String "z"%char rest)) => replace_gz rest
  | String c rest => String c (replace_gz rest)
  | EmptyString => EmptyString
  end.

(** The [model_filename] and [data_filename] fields of the response of
    [handle_upload]:
    [file.filename.replace(".gz", "") if file.filename else ""]. *)
Definition upload_filename (filename : option string) : string :=
  match filename with
  | Some (String _ _ as name) => replace_gz name
  | _ => ""
  end.

(** A row of the fairness runs, as far as the controllers read it. *)
Record MetricsRow : Type := {
  row_model_id : json;
  row_model_filename : json;
  row_data_id : json;
  row_data_filename : json;
  row_metrics_id : json;
  row_metrics : json
}.

(** [await db.commit()]; transactions are not tracked. *)
Definition db_commit : M unit := call DB (mret tt).

(** [except HTTPException as he: raise he] followed by
    [except Exception as e: raise HTTPException(500, prefix + str(e))]. *)
Definition reraise_http {A : Type} (prefix : string) (e : exn) : M A :=
  match e with
  | HTTPException _ _ => raise e
  | Exception _ => raise (HTTPException 500 (prefix ++ str_exn e))
  end.

Section ReadControllers.

(** The query functions of [crud/bias_and_fairness.py] are not part of
    the sources; the controllers are modelled over whatever they do. Each
    [async with get_db() as db: await f(..., db, tenant)] is a call to the
    record store around the query. *)
Variable get_all_metrics_query : string → M (list MetricsRow).
Variable get_metrics_by_id : Z → string → M (option MetricsRow).
Variable delete_metrics_by_id : Z → string → M bool.
Variable get_all_bias_fairness_evaluations : string → M json.
(** An evaluation is a mapping, or [None]. *)
Variable get_bias_fairness_evaluation_by_id :
  string → string → M (option (list (string * json))).

Definition get_all_metrics (tenant : string) : M response :=
  try_except
    (rows ← call DB (get_all_metrics_query tenant);
     mret (JSONResponse 200
             (JList (List.map
                       (fun row =>
                          JDict [("model_id", row_model_id row);
                                 ("model_filename", row_model_filename row);
                                 ("data_id", row_data_id row);
                                 ("data_filename", row_data_filename row);
                                 ("metrics_id", row_metrics_id row)])
                       rows))))
    (fun e => raise (HTTPException 500 ("Failed to retrieve metrics, " ++ str_exn e))).

Definition get_metrics (id : Z) (tenant : string) : M response :=
  try_except
    (found ← call DB (get_metrics_by_id id tenant);
     match found with
     | None => raise (HTTPException 404 ("Metrics with ID " ++ pretty id ++ " not found"))
     | Some row =>
         mret (JSONResponse 200
                 (JDict [("model_id", row_model_id row);
                         ("data_id", row_data_id row);
                         ("metrics_id", row_metrics_id row);
                         ("metrics", row_metrics row)]))
     end)
    (reraise_http "Failed to retrieve metrics, ").

Definition delete_metrics (id : Z) (tenant : string) : M response :=
  try_except
    (deleted ← call DB (delete_metrics_by_id id tenant);
     if negb deleted then
       raise (HTTPException 404 ("Metrics with ID " ++ pretty id ++ " not found"))
     else
       db_commit;;
       mret (Response 204))
    (reraise_http "Failed to delete metrics, ").

Definition get_all_bias_fairness_evaluations_controller (tenant : string) : M response :=
  try_except
    (evaluations ← call DB (get_all_bias_fairness_evaluations tenant);
     mret (JSONResponse 200 evaluations))
    (fun e => raise (HTTPException 500 ("Failed to retrieve evaluations: " ++ str_exn e))).

Definition get_bias_fairness_evaluation_by_id_controller (eval_id tenant : string)
  : M response :=
  try_except
    (evaluation ← call DB (get_bias_fairness_evaluation_by_id eval_id tenant);
     match evaluation with
     | Some ((_ :: _) as items) => mret (JSONResponse 200 (JDict items))
     | _ => raise (HTTPException 404 ("Evaluation with ID " ++ eval_id ++ " not found"))
     end)
    (reraise_http "Failed to retrieve evaluation: ").

End ReadControllers.

(** ** Further sample worlds *)

(** The status store is down for its first [n] calls. *)
Definition redis_down_for (n : nat) : sys → nat → option string := fun s i =>
  match s with
  | Redis => if (i <? n)%nat then Some "redis unavailable" else None
  | _ => None
  end.

(** ** Notions and samples for the lifecycle and for the shared file *)





(** * Properties *)

(** ** Config Materializer *)

Lemma materialize_empty : materialize [] = Ok default_template.
Proof. reflexivity. Qed.

Lemma Ok_inj {A : Type} (a b : A) : Ok a = Ok b → a = b.
Proof. congruence. Qed.

(** Inversion of a bind in the [result] monad. *)
Lemma bind_ok_inv {A B : Type} (m : result A) (f : A → result B) (b : B) :
  m ≫= f = Ok b → ∃ a, m = Ok a ∧ f a = Ok b.
Proof. destruct m as [a|e]; [eauto | discriminate]. Qed.

Lemma bind_raise_inv {A B : Type} (m : result A) (f : A → result B) (e : exn) :
  m ≫= f = Raise e → m = Raise e ∨ ∃ a, m = Ok a ∧ f a = Raise e.
Proof. destruct m as [a|e']; [eauto | intros [= ->]; now left]. Qed.

(** What each of the three shapes of [.get] chain returns. *)
Lemma py_get_top (config_data : list (string * json)) (k : string) (dflt : json) :
  py_get (JDict config_data) k dflt
  = Ok (default dflt (json_path [k] (JDict config_data))).
Proof. cbn. now destruct (dict_lookup k config_data). Qed.

Lemma get2_cases (config_data : list (string * json)) (k1 k2 : string) (dflt : json) :
  (slot_well_typed config_data [k1] = true ∧
   get2 config_data k1 k2 dflt
   = Ok (default dflt (json_path [k1; k2] (JDict config_data))))
  ∨ (∃ v e, json_path [k1] (JDict config_data) = Some v ∧ is_dict v = false ∧
            get2 config_data k1 k2 dflt = Raise e).
Proof.
  unfold get2, slot_well_typed. cbn.
  destruct (dict_lookup k1 config_data) as [v|]; [|now left].
  destruct v; cbn; try (right; do 2 eexists; repeat split; reflexivity).
  left. split; [reflexivity|]. now destruct (dict_lookup k2 items).
Qed.

Lemma get3_cases (config_data : list (string * json)) (k1 k2 k3 : string) (dflt : json) :
  (slot_well_typed config_data [k1] = true ∧
   slot_well_typed config_data [k1; k2] = true ∧
   get3 config_data k1 k2 k3 dflt
   = Ok (default dflt (json_path [k1; k2; k3] (JDict config_data))))
  ∨ (∃ p v e, (p = [k1] ∨ p = [k1; k2]) ∧
              json_path p (JDict config_data) = Some v ∧ is_dict v = false ∧
              get3 config_data k1 k2 k3 dflt = Raise e).
Proof.
  unfold get3, slot_well_typed. cbn.
  destruct (dict_lookup k1 config_data) as [v|] eqn:E1; [|now left].
  destruct v as [| | | | | |items]; cbn;
    try (right; exists [k1]; do 2 eexists; cbn; rewrite E1;
         split; [now left | repeat split; reflexivity]).
  destruct (dict_lookup k2 items) as [v|] eqn:E2; [|now left].
  destruct v as [| | | | | |items']; cbn;
    try (right; exists [k1; k2]; do 2 eexists; cbn; rewrite E1, E2;
         split; [now right | repeat split; reflexivity]).
  left. repeat split. now destruct (dict_lookup k3 items').
Qed.

Lemma get2_ok_inv (config_data : list (string * json)) (k1 k2 : string) (dflt x : json) :
  get2 config_data k1 k2 dflt = Ok x →
  x = default dflt (json_path [k1; k2] (JDict config_data)).
Proof.
  destruct (get2_cases config_data k1 k2 dflt) as [[_ ->]|(v & e & _ & _ & ->)];
    congruence.
Qed.

Lemma get3_ok_inv (config_data : list (string * json)) (k1 k2 k3 : string) (dflt x : json) :
  get3 config_data k1 k2 k3 dflt = Ok x →
  x = default dflt (json_path [k1; k2; k3] (JDict config_data)).
Proof.
  destruct (get3_cases config_data k1 k2 k3 dflt)
    as [(_ & _ & ->)|(p & v & e & _ & _ & _ & ->)]; congruence.
Qed.

Lemma py_get_ok_inv (config_data : list (string * json)) (k : string) (dflt x : json) :
  py_get (JDict config_data) k dflt = Ok x →
  x = default dflt (json_path [k] (JDict config_data)).
Proof. rewrite py_get_top. congruence. Qed.

(** Split [materialize config_data = Ok cfg] into one equation per entry
    of the literal. *)
Ltac invert_materialize H :=
  unfold materialize in H;
  repeat (let x := fresh "x" in let Hx := fresh "Hx" in
          apply bind_ok_inv in H as (x & Hx & H);
          first [apply get2_ok_inv in Hx | apply get3_ok_inv in Hx
                | apply py_get_ok_inv in Hx];
          subst x);
  apply Ok_inj in H; subst.

Lemma slot_override_single (o t : list string) (x : json) :
  In (o, t) override_slots →
  materialize (override_at o x) = Ok (json_set t x default_template).
Proof.
  intros Hin. unfold override_slots in Hin. simpl in Hin.
  repeat (destruct Hin as [Hin|Hin]; [injection Hin as <- <-; vm_compute; reflexivity|]).
  destruct Hin.
Qed.

Lemma slot_override_or_default (config_data : list (string * json)) (cfg : json)
    (o t : list string) :
  materialize config_data = Ok cfg →
  In (o, t) override_slots →
  json_path t cfg =
    match json_path o (JDict config_data) with
    | Some x => Some x
    | None => json_path t default_template
    end.
Proof.
  intros H Hin. invert_materialize H. simpl in Hin.
  repeat (destruct Hin as [Hin|Hin];
          [injection Hin as <- <-;
           match goal with
           | |- _ = match ?lk with _ => _ end => generalize lk; intros [?|]
           end;
           vm_compute; reflexivity|]).
  destruct Hin.
Qed.

Lemma fixed_slot_default (config_data : list (string * json)) (cfg : json) (t : list string) :
  materialize config_data = Ok cfg →
  In t fixed_slots →
  json_path t cfg = json_path t default_template.
Proof.
  intros H Hin. invert_materialize H. simpl in Hin.
  repeat (destruct Hin as [Hin|Hin]; [subst t; vm_compute; reflexivity|]).
  destruct Hin.
Qed.

Lemma well_typed_ok (config_data : list (string * json)) :
  overrides_well_typed config_data = true → is_ok (materialize config_data) = true.
Proof.
  unfold overrides_well_typed, mapping_slots. cbn [forallb].
  rewrite !andb_true_iff. intros (Hd & Hs & Hp & Hb & Hm & He & _).
  unfold materialize. rewrite !py_get_top.
  repeat match goal with
  | |- context [get2 config_data ?k1 ?k2 ?dflt] =>
      destruct (get2_cases config_data k1 k2 dflt)
        as [[_ ->]|(v & e & Hv & Hv' & _)];
      [|unfold slot_well_typed in *; rewrite Hv in *; congruence]
  | |- context [get3 config_data ?k1 ?k2 ?k3 ?dflt] =>
      destruct (get3_cases config_data k1 k2 k3 dflt)
        as [(_ & _ & ->)|(p & v & e & [-> | ->] & Hv & Hv' & _)];
      [|unfold slot_well_typed in *; rewrite Hv in *; congruence ..]
  end.
  reflexivity.
Qed.

Lemma raise_ill_typed (config_data : list (string * json)) (e : exn) :
  materialize config_data = Raise e →
  ∃ p v, In p mapping_slots ∧ json_path p (JDict config_data) = Some v ∧ is_dict v = false.
Proof.
  unfold materialize. rewrite !py_get_top. intros H.
  repeat match type of H with
  | (get2 config_data ?k1 ?k2 ?dflt ≫= _) = Raise _ =>
      apply bind_raise_inv in H as [H|(? & _ & H)];
      [destruct (get2_cases config_data k1 k2 dflt)
         as [[_ Hok]|(v & e' & Hv & Hv' & _)];
       [congruence | exists [k1], v; simpl; tauto]|]
  | (get3 config_data ?k1 ?k2 ?k3 ?dflt ≫= _) = Raise _ =>
      apply bind_raise_inv in H as [H|(? & _ & H)];
      [destruct (get3_cases config_data k1 k2 k3 dflt)
         as [(_ & _ & Hok)|(p & v & e' & [-> | ->] & Hv & Hv' & _)];
       [congruence | exists [k1], v; simpl; tauto | exists [k1; k2], v; simpl; tauto]|]
  | (Ok _ ≫= _) = Raise _ =>
      apply bind_raise_inv in H as [H|(? & _ & H)]; [discriminate H|]
  end.
  discriminate H.
Qed.

Lemma get2_ok_well_typed (config_data : list (string * json)) (k1 k2 : string)
    (dflt x : json) :
  get2 config_data k1 k2 dflt = Ok x → slot_well_typed config_data [k1] = true.
Proof.
  destruct (get2_cases config_data k1 k2 dflt) as [[? _]|(v & e & _ & _ & ->)];
    [trivial | discriminate].
Qed.

Lemma get3_ok_well_typed (config_data : list (string * json)) (k1 k2 k3 : string)
    (dflt x : json) :
  get3 config_data k1 k2 k3 dflt = Ok x →
  slot_well_typed config_data [k1] = true ∧ slot_well_typed config_data [k1; k2] = true.
Proof.
  destruct (get3_cases config_data k1 k2 k3 dflt)
    as [(? & ? & _)|(p & v & e & _ & _ & _ & ->)]; [auto | discriminate].
Qed.

Lemma ok_well_typed (config_data : list (string * json)) (cfg : json) :
  materialize config_data = Ok cfg → overrides_well_typed config_data = true.
Proof.
  intros H. unfold materialize in H.
  repeat (let Hx := fresh "Hx" in
          apply bind_ok_inv in H as (? & Hx & H);
          first [apply get2_ok_well_typed in Hx
                | apply get3_ok_well_typed in Hx as [? ?]
                | clear Hx]).
  unfold overrides_well_typed, mapping_slots. cbn [forallb].
  repeat (apply andb_true_intro; split); solve [assumption | reflexivity].
Qed.

(** An override written at the template's own path is not read. *)
Example template_path_not_read :
  materialize (override_at ["dataset"; "sampling"; "n_samples"] (JInt 10))
  = Ok default_template.
Proof. reflexivity. Qed.

(** Generation parameters cannot be overridden. *)
Example temperature_not_overridable :
  materialize (override_at ["model"; "huggingface"; "temperature"] (JFloat "0.1"))
  = Ok default_template.
Proof. reflexivity. Qed.

(** C5, as amended. The materializer is a function of the overrides that
    fills a fixed list of slots, not a recursive merge. With no overrides
    it returns the default template; the overrides that set only
    [sampling.n_samples = 10] give the default template with
    [dataset.sampling.n_samples = 10]; overriding any single slot replaces
    that slot's whole value and nothing else; and for any overrides every
    slot holds the override when one is present at the slot's place in
    [config_data] and the default otherwise, while the fields that have no
    slot keep their default. *)
Theorem materialize_slotwise :
  materialize [] = Ok default_template ∧
  materialize (override_at ["sampling"; "n_samples"] (JInt 10))
  = Ok (json_set ["dataset"; "sampling"; "n_samples"] (JInt 10) default_template) ∧
  (∀ o t x, In (o, t) override_slots →
     materialize (override_at o x) = Ok (json_set t x default_template)) ∧
  (∀ config_data cfg, materialize config_data = Ok cfg →
     (∀ o t, In (o, t) override_slots →
        json_path t cfg =
          match json_path o (JDict config_data) with
          | Some x => Some x
          | None => json_path t default_template
          end) ∧
     (∀ t, In t fixed_slots → json_path t cfg = json_path t default_template)).
Proof.
  split; [exact materialize_empty|].
  split; [reflexivity|].
  split; [exact slot_override_single|].
  intros config_data cfg H. split.
  - intros o t. now apply slot_override_or_default.
  - intros t. now apply (fixed_slot_default config_data).
Qed.

Lemma materialize_slotwise_witness :
  materialize (override_at ["model"; "model_id"] (JStr "gpt2"))
  = Ok (json_set ["model"; "huggingface"; "model_id"] (JStr "gpt2") default_template) ∧
  json_path ["metrics"; "fairness"; "metrics"]
    (json_set ["model"; "huggingface"; "model_id"] (JStr "gpt2") default_template)
  = json_path ["metrics"; "fairness"; "metrics"] default_template ∧
  json_path ["model"; "huggingface"; "top_p"]
    (json_set ["model"; "huggingface"; "model_id"] (JStr "gpt2") default_template)
  = json_path ["model"; "huggingface"; "top_p"] default_template.
Proof.
  destruct materialize_slotwise as (_ & _ & Hsingle & Hall).
  assert (Hin : In (["model"; "model_id"], ["model"; "huggingface"; "model_id"])
                   override_slots) by (simpl; tauto).
  pose proof (Hsingle _ _ (JStr "gpt2") Hin) as Hm.
  destruct (Hall _ _ Hm) as [Hslots Hfixed].
  split; [exact Hm|]. split.
  - apply (Hslots ["metrics"; "fairness"] ["metrics"; "fairness"; "metrics"]).
    simpl; tauto.
  - apply Hfixed. simpl; tauto.
Defined.

(** C5, as stated, fails: overriding the one leaf
    [post_processing.attribute_groups.sex.privileged] does not leave the
    default template everywhere else. A recursive merge keeps the [race]
    group and [sex.unprivileged]; the materializer replaces the whole
    [attribute_groups] mapping and loses both. *)
Lemma materialize_not_deep_merge :
  deep_merge default_template (JDict groups_override)
  = json_set groups_path (JList [JStr "X"]) default_template ∧
  materialize groups_override
  ≠ Ok (deep_merge default_template (JDict groups_override)) ∧
  (∃ cfg, materialize groups_override = Ok cfg ∧
          json_path ["post_processing"; "attribute_groups"; "race"] cfg = None ∧
          json_path ["post_processing"; "attribute_groups"; "sex"; "unprivileged"] cfg
          = None).
Proof.
  split; [reflexivity|]. split.
  - intros H. vm_compute in H. discriminate H.
  - eexists. split; [reflexivity|]. split; reflexivity.
Qed.

(** C6. Whatever is missing from the overrides, the materializer returns a
    configuration as long as every mapping slot that is present holds a
    mapping; and when it raises, some mapping slot of the overrides holds
    a value that is not a mapping. *)
Theorem materialize_raises_only_on_ill_typed_slot (config_data : list (string * json)) :
  ((∀ p v, In p mapping_slots → json_path p (JDict config_data) = Some v →
           is_dict v = true) →
   ∃ cfg, materialize config_data = Ok cfg) ∧
  (∀ e, materialize config_data = Raise e →
        ∃ p v, In p mapping_slots ∧ json_path p (JDict config_data) = Some v ∧
               is_dict v = false).
Proof.
  split; [|intros e; apply raise_ill_typed].
  intros Hwt.
  assert (H : overrides_well_typed config_data = true).
  { unfold overrides_well_typed. apply forallb_forall. intros p Hp.
    unfold slot_well_typed.
    destruct (json_path p (JDict config_data)) as [v|] eqn:E; [|reflexivity].
    now apply (Hwt p v). }
  apply well_typed_ok in H.
  destruct (materialize config_data) as [cfg|e]; [eauto | discriminate H].
Qed.

Lemma materialize_raises_only_on_ill_typed_slot_witness :
  (∃ cfg, materialize [("target_column", JList [JInt 1]); ("model", JDict [])] = Ok cfg) ∧
  (∃ p v, In p mapping_slots ∧
          json_path p (JDict [("sampling", JList [JInt 10])]) = Some v ∧
          is_dict v = false).
Proof.
  split.
  - apply (proj1 (materialize_raises_only_on_ill_typed_slot
                    [("target_column", JList [JInt 1]); ("model", JDict [])])).
    intros p v Hin Hp. simpl in Hin.
    repeat (destruct Hin as [Hin|Hin];
            [subst p; vm_compute in Hp; first [discriminate Hp | now injection Hp as <-]|]).
    destruct Hin.
  - apply (proj2 (materialize_raises_only_on_ill_typed_slot
                    [("sampling", JList [JInt 10])])
             (Exception "'list' object has no attribute 'get'")).
    reflexivity.
Defined.

(** A list where a scalar is expected is copied as it is. *)
Example list_for_scalar_accepted :
  ∃ cfg, materialize [("target_column", JList [JInt 1])] = Ok cfg ∧
         json_path ["dataset"; "target_column"] cfg = Some (JList [JInt 1]).
Proof. eexists. split; reflexivity. Qed.

(** ** Running the controllers symbolically *)

Ltac unfold_controllers :=
  unfold run_bias_fairness_evaluation, update_job_status, get_upload_status,
     delete_bias_fairness_evaluation_controller, create_config_and_run_evaluation,
     run_subprocess,
     get_next_job_id, get_job_status, delete_job_status, set_job_status,
     insert_bias_fairness_evaluation, update_bias_fairness_evaluation_status,
     delete_bias_fairness_evaluation,
     mkdir, write_file, chdir, path_exists, read_file, print, get_loop_time, add_task,
     try_except, raise, lift, get_world, modify, call,
     mbind, M_bind, mret, M_ret, results_file, config_dir.

(** Reduce the projections of the worlds built so far. *)
Ltac exec :=
  cbn [set_db set_db_writes set_redis set_job_counter set_fs set_cwd set_printed
       set_background_tasks set_calls
       db db_writes redis job_counter fs cwd loop_time printed background_tasks
       calls faults fst snd Z.eqb negb].

(** Run as far as the listed equations decide the branches. *)
Tactic Notation "run" "with" constr(H1) :=
  unfold_controllers; repeat (progress (exec; rewrite ?H1)).
Tactic Notation "run" "with" constr(H1) "," constr(H2) :=
  unfold_controllers; repeat (progress (exec; rewrite ?H1, ?H2)).
Tactic Notation "run" "with" constr(H1) "," constr(H2) "," constr(H3) :=
  unfold_controllers; repeat (progress (exec; rewrite ?H1, ?H2, ?H3)).
Tactic Notation "run" "with" constr(H1) "," constr(H2) "," constr(H3) "," constr(H4) :=
  unfold_controllers; repeat (progress (exec; rewrite ?H1, ?H2, ?H3, ?H4)).
Tactic Notation "run" "with" constr(H1) "," constr(H2) "," constr(H3) "," constr(H4)
    "," constr(H5) :=
  unfold_controllers; repeat (progress (exec; rewrite ?H1, ?H2, ?H3, ?H4, ?H5)).
Tactic Notation "run" "with" constr(H1) "," constr(H2) "," constr(H3) "," constr(H4)
    "," constr(H5) "," constr(H6) :=
  unfold_controllers; repeat (progress (exec; rewrite ?H1, ?H2, ?H3, ?H4, ?H5, ?H6)).

Lemma exists_true (files : gmap string string) (path text : string) :
  files !! path = Some text → bool_decide (is_Some (files !! path)) = true.
Proof. intros H. apply bool_decide_eq_true. eauto. Qed.

Lemma exists_false (files : gmap string string) (path : string) :
  files !! path = None → bool_decide (is_Some (files !! path)) = false.
Proof. intros H. apply bool_decide_eq_false. rewrite H. now intros [? ?]. Qed.

(** ** Evaluation Runner: the three outcomes of the external computation *)


Section Runner.

Variable env : Env.
Variables (job_id : Z) (config_path eval_id tenant : string).

(** C1. When every collaborator answers, the external computation exits
    with code 0 and the results file exists and parses, the run ends
    normally, the record is [completed] with the parsed content as its
    results, and the status store holds, under the job id, the payload
    [{status: completed, eval_id, results, message}]. *)
Theorem runner_completed (w : World) (r : EvalRecord) (p : CompletedProcess)
    (files : gmap string string) (text : string) (results : json) :
  quiet w →
  db w !! (tenant, eval_id) = Some r →
  subprocess_run env (cli_args env config_path) (module_dir w) (fs w) = (p, files) →
  returncode p = 0 →
  files !! results_path w = Some text →
  json_load env text = Ok results →
  let out := run_bias_fairness_evaluation env job_id config_path eval_id tenant w in
  out.1 = Ok tt ∧
  db out.2 !! (tenant, eval_id) = Some (with_status "completed" results r) ∧
  redis out.2 !! job_id
  = Some (JDict [("status", JStr "completed");
                 ("eval_id", JStr eval_id);
                 ("results", results);
                 ("message", JStr "Evaluation completed successfully")]) ∧
  db_writes out.2
  = (db_writes w ++ [(tenant, eval_id, "running"); (tenant, eval_id, "completed")])%list.
Proof.
  unfold quiet, results_path, module_dir.
  intros Hq Hr Hp Hc Hf Hj.
  pose proof (exists_true _ _ _ Hf) as Hx.
  run with Hq, Hp, Hc, Hx, Hf, Hj.
  split; [reflexivity|]. split; [|split].
  - rewrite !lookup_alter_eq, Hr. reflexivity.
  - apply lookup_insert_eq.
  - now rewrite <- app_assoc.
Qed.

(** C3. When every collaborator answers and the external computation
    exits with a nonzero code, the run ends normally, the record is
    [failed], and the status store holds, under the job id, a [failed]
    payload whose [error] is the standard error text of the process,
    character for character. *)
Theorem runner_process_failed (w : World) (r : EvalRecord) (p : CompletedProcess)
    (files : gmap string string) :
  quiet w →
  db w !! (tenant, eval_id) = Some r →
  subprocess_run env (cli_args env config_path) (module_dir w) (fs w) = (p, files) →
  returncode p ≠ 0 →
  let out := run_bias_fairness_evaluation env job_id config_path eval_id tenant w in
  out.1 = Ok tt ∧
  db out.2 !! (tenant, eval_id) = Some (with_status "failed" JNull r) ∧
  redis out.2 !! job_id
  = Some (JDict [("status", JStr "failed");
                 ("eval_id", JStr eval_id);
                 ("error", JStr (stderr p));
                 ("message", JStr "Evaluation failed - CLI execution error")]) ∧
  db_writes out.2
  = (db_writes w ++ [(tenant, eval_id, "running"); (tenant, eval_id, "failed")])%list.
Proof.
  unfold quiet, module_dir.
  intros Hq Hr Hp Hc. apply Z.eqb_neq in Hc.
  run with Hq, Hp, Hc.
  split; [reflexivity|]. split; [|split].
  - rewrite !lookup_alter_eq, Hr. reflexivity.
  - apply lookup_insert_eq.
  - now rewrite <- app_assoc.
Qed.

(** Whatever else fails, and whatever the external computation does, a
    run whose record-store writes are accepted ends normally, after
    writing [running] and then exactly one of [completed] and [failed]. *)
Lemma runner_record_store_up (w : World) :
  quiet_sys DB w →
  let out := run_bias_fairness_evaluation env job_id config_path eval_id tenant w in
  out.1 = Ok tt ∧
  ∃ t, (t = "completed" ∨ t = "failed") ∧
       db_writes out.2
       = (db_writes w ++ [(tenant, eval_id, "running"); (tenant, eval_id, t)])%list.
Proof.
  unfold quiet_sys. intros HD.
  run with HD.
  repeat (case_match; simplify_eq; exec; rewrite ?HD; exec).
  all: split; [reflexivity|].
  all: eexists; split; [|rewrite <- app_assoc; reflexivity]; tauto.
Qed.

(** In any execution at all, the writes the record store accepted from
    the run are one of five sequences; none has a write after
    [completed] or [failed]. *)
Lemma runner_writes_any_execution (w : World) :
  let out := run_bias_fairness_evaluation env job_id config_path eval_id tenant w in
  ∃ ws, db_writes out.2 = (db_writes w ++ ws)%list ∧
        Forall (fun x => x.1 = (tenant, eval_id)) ws ∧
        In (List.map snd ws)
           [[]; ["running"]; ["failed"]; ["running"; "completed"]; ["running"; "failed"]].
Proof.
  unfold_controllers. exec.
  repeat (case_match; simplify_eq; exec).
  all: try (exists []; rewrite app_nil_r;
            split; [reflexivity | split; [constructor | simpl; tauto]]).
  all: try (eexists [_]; split; [reflexivity | split; [repeat constructor | simpl; tauto]]).
  all: eexists [_; _];
    split; [rewrite <- app_assoc; reflexivity | split; [repeat constructor | simpl; tauto]].
Qed.


(** C7, the failing execution. When the record store rejects the
    [running] write and then rejects the [failed] write of the exception
    handler, the second exception leaves the runner: no status was
    recorded and no status payload was written. *)
Theorem runner_handler_write_failure_propagates (w : World) (m1 m2 : string) :
  faults w DB (calls w DB) = Some m1 →
  faults w DB (S (calls w DB)) = Some m2 →
  let out := run_bias_fairness_evaluation env job_id config_path eval_id tenant w in
  out.1 = Raise (Exception m2) ∧
  db out.2 = db w ∧ db_writes out.2 = db_writes w ∧ redis out.2 = redis w.
Proof.
  intros H1 H2.
  run with H1. rewrite decide_True by reflexivity. rewrite H2. exec. auto.
Qed.

(** The part of C7 the code does deliver: an exception of an
    orchestration step (here [os.chdir]) is caught, the record becomes
    [failed] and the payload carries the text of the exception. *)
Lemma runner_orchestration_exception_reported (w : World) (r : EvalRecord) (msg : string) :
  quiet_sys DB w → quiet_sys Redis w →
  faults w OS (calls w OS) = Some msg →
  db w !! (tenant, eval_id) = Some r →
  let out := run_bias_fairness_evaluation env job_id config_path eval_id tenant w in
  out.1 = Ok tt ∧
  db out.2 !! (tenant, eval_id) = Some (with_status "failed" JNull r) ∧
  redis out.2 !! job_id
  = Some (JDict [("status", JStr "failed");
                 ("eval_id", JStr eval_id);
                 ("error", JStr msg);
                 ("message", JStr ("Evaluation failed: " ++ msg))]).
Proof.
  unfold quiet_sys. intros HD HR HO Hr.
  run with HD, HR. rewrite decide_False by discriminate. rewrite HO.
  repeat (progress (exec; rewrite ?HD, ?HR)).
  split; [reflexivity|]. split.
  - rewrite !lookup_alter_eq, Hr. reflexivity.
  - apply lookup_insert_eq.
Qed.

(** A failure of the status store while the outcome is reported is
    printed and goes no further. *)
Lemma runner_status_store_failure_contained (w : World) :
  quiet_sys DB w →
  (run_bias_fairness_evaluation env job_id config_path eval_id tenant w).1 = Ok tt.
Proof. intros HD. apply (runner_record_store_up w HD). Qed.

End Runner.


(** C2, as amended. When every collaborator answers and the external
    computation exits with code 0 without leaving a results file, the run
    ends normally, the record is [failed] with no results, and the status
    store holds, under the job id, a [failed] payload with the error
    [Results file not found] and the message
    [Evaluation failed - results file not generated]. A run in which the
    process itself fails leaves the same record and a different payload:
    the two failures are told apart by the status payload only. *)
Theorem runner_missing_results (env env' : Env) (job_id : Z)
    (config_path eval_id tenant : string) (w : World) (r : EvalRecord)
    (p p' : CompletedProcess) (files files' : gmap string string) :
  quiet w →
  db w !! (tenant, eval_id) = Some r →
  subprocess_run env (cli_args env config_path) (module_dir w) (fs w) = (p, files) →
  returncode p = 0 →
  files !! results_path w = None →
  subprocess_run env' (cli_args env' config_path) (module_dir w) (fs w) = (p', files') →
  returncode p' ≠ 0 →
  let out := run_bias_fairness_evaluation env job_id config_path eval_id tenant w in
  let out' := run_bias_fairness_evaluation env' job_id config_path eval_id tenant w in
  out.1 = Ok tt ∧
  db out.2 !! (tenant, eval_id) = Some (with_status "failed" JNull r) ∧
  redis out.2 !! job_id
  = Some (JDict [("status", JStr "failed");
                 ("eval_id", JStr eval_id);
                 ("error", JStr "Results file not found");
                 ("message", JStr "Evaluation failed - results file not generated")]) ∧
  db out.2 = db out'.2 ∧
  redis out.2 !! job_id ≠ redis out'.2 !! job_id.
Proof.
  intros Hq Hr Hp Hc Hf Hp' Hc' out out'.
  assert (Hout' : db out'.2
                  = alter (with_status "failed" JNull) (tenant, eval_id)
                      (alter (with_status "running" JNull) (tenant, eval_id) (db w))
                  ∧ redis out'.2 !! job_id
                    = Some (JDict [("status", JStr "failed");
                                   ("eval_id", JStr eval_id);
                                   ("error", JStr (stderr p'));
                                   ("message",
                                    JStr "Evaluation failed - CLI execution error")])).
  { subst out'. unfold quiet, module_dir in *. apply Z.eqb_neq in Hc'.
    run with Hq, Hp', Hc'. split; [reflexivity | apply lookup_insert_eq]. }
  destruct Hout' as [Hout' Hredis'].
  rewrite Hredis', Hout'. subst out. clear out' Hredis' Hout'.
  unfold quiet, results_path, module_dir in *.
  pose proof (exists_false _ _ Hf) as Hx.
  run with Hq, Hp, Hc, Hx.
  split; [reflexivity|]. split; [|split; [|split]].
  - rewrite !lookup_alter_eq, Hr. reflexivity.
  - apply lookup_insert_eq.
  - reflexivity.
  - rewrite lookup_insert_eq. intros [=].
Qed.

(** C2, as stated, fails: after a run in which the external computation
    exits 0 and leaves no results file, the evaluation record is the one
    a failed process leaves, status [failed] with null results and no
    reason; and the status payload holds the text
    [Results file not found], not a code [missing_results]. *)
Lemma missing_results_reason_not_recorded :
  db run_missing.2 = db run_failed.2 ∧
  db run_missing.2 !! ("acme", "eval_1_1000")
  = Some (with_status "failed" JNull pending_record) ∧
  redis run_missing.2 !! 1
  = Some (JDict [("status", JStr "failed");
                 ("eval_id", JStr "eval_1_1000");
                 ("error", JStr "Results file not found");
                 ("message", JStr "Evaluation failed - results file not generated")]) ∧
  ¬ In (JStr "missing_results")
       (entry_values (default JNull (redis run_missing.2 !! 1))).
Proof.
  split; [vm_compute; reflexivity|].
  split; [vm_compute; reflexivity|].
  split; [vm_compute; reflexivity|].
  vm_compute. intros H. repeat (destruct H as [H|H]; [discriminate H|]). exact H.
Qed.

(** ** Status polling *)


(** ** Deleting an evaluation *)

(** The record store's own answer. *)
Lemma delete_store_result (eval_id tenant : string) (w : World) :
  faults w DB (calls w DB) = None →
  let out := delete_bias_fairness_evaluation eval_id tenant w in
  out.1 = Ok (bool_decide (is_Some (db w !! (tenant, eval_id)))) ∧
  db out.2 = delete (tenant, eval_id) (db w).
Proof. intros HD. run with HD. auto. Qed.

(** C8. The delete controller never lets anything but an [HTTPException]
    out. With the record store answering, deleting an evaluation the
    tenant has removes that record, leaves every other record alone and
    answers 200; deleting an id the tenant does not have changes nothing
    and ends in the 404 [HTTPException], also when another tenant has a
    record under that id. *)
Theorem delete_controller_outcomes (eval_id tenant : string) (w : World) :
  let out := delete_bias_fairness_evaluation_controller eval_id tenant w in
  (∀ e, out.1 = Raise e → ∃ code detail, e = HTTPException code detail) ∧
  (faults w DB (calls w DB) = None →
   match db w !! (tenant, eval_id) with
   | Some _ =>
       (delete_bias_fairness_evaluation eval_id tenant w).1 = Ok true ∧
       out.1 = Ok (JSONResponse 200
                     (JDict [("message",
                              JStr ("Evaluation " ++ eval_id ++ " deleted successfully"))])) ∧
       db out.2 !! (tenant, eval_id) = None ∧
       (∀ k, k ≠ (tenant, eval_id) → db out.2 !! k = db w !! k)
   | None =>
       (delete_bias_fairness_evaluation eval_id tenant w).1 = Ok false ∧
       out.1 = Raise (HTTPException 404 ("Evaluation with ID " ++ eval_id ++ " not found")) ∧
       db out.2 = db w
   end).
Proof.
  intros out. subst out. split.
  - unfold_controllers. exec.
    repeat (case_match; simplify_eq; exec); intros e [= <-]; eauto.
  - intros HD. destruct (db w !! (tenant, eval_id)) as [r|] eqn:E.
    + assert (Hb : bool_decide (is_Some (db w !! (tenant, eval_id))) = true)
        by (apply bool_decide_eq_true; eauto).
      run with HD, Hb.
      split; [reflexivity|]. split; [reflexivity|]. split.
      * apply lookup_delete_eq.
      * intros k Hk. now apply lookup_delete_ne.
    + assert (Hb : bool_decide (is_Some (db w !! (tenant, eval_id))) = false)
        by (apply bool_decide_eq_false; rewrite E; now intros [? ?]).
      run with HD, Hb.
      split; [reflexivity|]. split; [reflexivity|]. now apply delete_id.
Qed.

(** ** Submission *)


(** ** The theorems at sample inputs *)

Lemma runner_completed_witness :
  quiet (pending_world no_faults) ∧
  returncode (sample_result 0 "") = 0 ∧
  sample_files !! results_path (pending_world no_faults) = Some sample_artifact ∧
  sample_load sample_artifact = Ok (JDict [("accuracy", JInt 1)]) ∧
  let out := run_bias_fairness_evaluation (sample_env 0 "" (Some sample_artifact)) 1
               sample_config_path "eval_1_1000" "acme" (pending_world no_faults) in
  out.1 = Ok tt ∧
  db out.2 !! ("acme", "eval_1_1000")
  = Some (with_status "completed" (JDict [("accuracy", JInt 1)]) pending_record) ∧
  redis out.2 !! 1
  = Some (JDict [("status", JStr "completed");
                 ("eval_id", JStr "eval_1_1000");
                 ("results", JDict [("accuracy", JInt 1)]);
                 ("message", JStr "Evaluation completed successfully")]) ∧
  db_writes out.2
  = [("acme", "eval_1_1000", "running"); ("acme", "eval_1_1000", "completed")].
Proof.
  assert (Hq : quiet (pending_world no_faults)) by (intros s n; reflexivity).
  assert (Hf : sample_files !! results_path (pending_world no_faults) = Some sample_artifact)
    by (vm_compute; reflexivity).
  split; [exact Hq|]. split; [reflexivity|]. split; [exact Hf|]. split; [reflexivity|].
  apply (runner_completed (sample_env 0 "" (Some sample_artifact)) 1 sample_config_path
           "eval_1_1000" "acme" (pending_world no_faults) pending_record
           (sample_result 0 "") sample_files sample_artifact (JDict [("accuracy", JInt 1)])).
  - exact Hq.
  - vm_compute; reflexivity.
  - vm_compute; reflexivity.
  - reflexivity.
  - exact Hf.
  - reflexivity.
Defined.

Lemma runner_process_failed_witness :
  quiet (pending_world no_faults) ∧
  returncode (sample_result 2 "OOM") ≠ 0 ∧
  let out := run_bias_fairness_evaluation (sample_env 2 "OOM" None) 1
               sample_config_path "eval_1_1000" "acme" (pending_world no_faults) in
  out.1 = Ok tt ∧
  db out.2 !! ("acme", "eval_1_1000") = Some (with_status "failed" JNull pending_record) ∧
  redis out.2 !! 1
  = Some (JDict [("status", JStr "failed");
                 ("eval_id", JStr "eval_1_1000");
                 ("error", JStr "OOM");
                 ("message", JStr "Evaluation failed - CLI execution error")]) ∧
  db_writes out.2
  = [("acme", "eval_1_1000", "running"); ("acme", "eval_1_1000", "failed")].
Proof.
  assert (Hq : quiet (pending_world no_faults)) by (intros s n; reflexivity).
  assert (Hc : returncode (sample_result 2 "OOM") ≠ 0) by (intros H; discriminate H).
  split; [exact Hq|]. split; [exact Hc|].
  apply (runner_process_failed (sample_env 2 "OOM" None) 1 sample_config_path
           "eval_1_1000" "acme" (pending_world no_faults) pending_record
           (sample_result 2 "OOM") ∅).
  - exact Hq.
  - vm_compute; reflexivity.
  - vm_compute; reflexivity.
  - exact Hc.
Defined.

Lemma runner_missing_results_witness :
  quiet (pending_world no_faults) ∧
  returncode (sample_result 0 "") = 0 ∧
  (∅ : gmap string string) !! results_path (pending_world no_faults) = None ∧
  returncode (sample_result 2 "OOM") ≠ 0 ∧
  run_missing.1 = Ok tt ∧
  db run_missing.2 !! ("acme", "eval_1_1000")
  = Some (with_status "failed" JNull pending_record) ∧
  redis run_missing.2 !! 1
  = Some (JDict [("status", JStr "failed");
                 ("eval_id", JStr "eval_1_1000");
                 ("error", JStr "Results file not found");
                 ("message", JStr "Evaluation failed - results file not generated")]) ∧
  db run_missing.2 = db run_failed.2 ∧
  redis run_missing.2 !! 1 ≠ redis run_failed.2 !! 1.
Proof.
  assert (Hq : quiet (pending_world no_faults)) by (intros s n; reflexivity).
  assert (Hc : returncode (sample_result 2 "OOM") ≠ 0) by (intros H; discriminate H).
  split; [exact Hq|]. split; [reflexivity|]. split; [reflexivity|]. split; [exact Hc|].
  apply (runner_missing_results (sample_env 0 "" None) (sample_env 2 "OOM" None) 1
           sample_config_path "eval_1_1000" "acme" (pending_world no_faults) pending_record
           (sample_result 0 "") (sample_result 2 "OOM") ∅ ∅).
  - exact Hq.
  - vm_compute; reflexivity.
  - vm_compute; reflexivity.
  - reflexivity.
  - reflexivity.
  - vm_compute; reflexivity.
  - exact Hc.
Defined.


Lemma runner_handler_write_failure_propagates_witness :
  faults (pending_world (db_down_for 2)) DB 0 = Some "connection refused" ∧
  faults (pending_world (db_down_for 2)) DB 1 = Some "connection refused" ∧
  let out := run_bias_fairness_evaluation (sample_env 2 "OOM" None) 1
               sample_config_path "eval_1_1000" "acme" (pending_world (db_down_for 2)) in
  out.1 = Raise (Exception "connection refused") ∧
  db out.2 = db (pending_world (db_down_for 2)) ∧
  db_writes out.2 = [] ∧
  redis out.2 = redis (pending_world (db_down_for 2)).
Proof.
  split; [reflexivity|]. split; [reflexivity|].
  apply (runner_handler_write_failure_propagates (sample_env 2 "OOM" None) 1
           sample_config_path "eval_1_1000" "acme" (pending_world (db_down_for 2))
           "connection refused" "connection refused"); reflexivity.
Defined.


Lemma delete_controller_outcomes_witness :
  faults (pending_world no_faults) DB 0 = None ∧
  (let out := delete_bias_fairness_evaluation_controller "eval_1_1000" "acme"
                (pending_world no_faults) in
   out.1 = Ok (JSONResponse 200
                 (JDict [("message", JStr "Evaluation eval_1_1000 deleted successfully")])) ∧
   db out.2 !! ("acme", "eval_1_1000") = None) ∧
  (let out := delete_bias_fairness_evaluation_controller "eval_1_1000" "globex"
                (pending_world no_faults) in
   out.1 = Raise (HTTPException 404 "Evaluation with ID eval_1_1000 not found") ∧
   db out.2 = db (pending_world no_faults)).
Proof.
  assert (Hq : faults (pending_world no_faults) DB (calls (pending_world no_faults) DB) = None)
    by reflexivity.
  split; [reflexivity|]. split.
  - pose proof (proj2 (delete_controller_outcomes "eval_1_1000" "acme"
                         (pending_world no_faults)) Hq) as H.
    replace (db (pending_world no_faults) !! ("acme", "eval_1_1000"))
      with (Some pending_record) in H by (vm_compute; reflexivity).
    destruct H as (_ & H1 & H2 & _). split; [exact H1 | exact H2].
  - pose proof (proj2 (delete_controller_outcomes "eval_1_1000" "globex"
                         (pending_world no_faults)) Hq) as H.
    replace (db (pending_world no_faults) !! ("globex", "eval_1_1000"))
      with (@None EvalRecord) in H by (vm_compute; reflexivity).
    destruct H as (_ & H1 & H2). split; [exact H1 | exact H2].
Defined.


(** The first record still holds the first configuration. *)
Example first_record_kept :
  rec_config_data <$> db second_submission.2 !! ("acme", "eval_1_1000")
  = Some (show_json default_template).
Proof. vm_compute. reflexivity. Qed.

(** The path of the configuration file is relative. It is resolved against
    the working directory of the process, which a run of the runner moves
    into the module directory; a submission after a run therefore writes
    below that directory. *)
Example submission_after_run :
  let w := (run_bias_fairness_evaluation (sample_env 0 "" (Some sample_artifact)) 1
              sample_config_path "eval_1_1000" "acme" first_submission.2).2 in
  cwd w = "/app/BiasAndFairnessModule" ∧
  dom (fs (create_config_and_run_evaluation (sample_env 0 "" None) [] "acme" w).2)
  = {[ "/app/BiasAndFairnessModule/configs/config.yaml";
       "/app/BiasAndFairnessModule/artifacts/clean_results.json";
       "/app/BiasAndFairnessModule/BiasAndFairnessModule/configs/config.yaml" ]}.
Proof. split; vm_compute; reflexivity. Qed.


(** * Further properties of the controllers *)

(** ** Evaluation ids *)

Lemma append_nil_l (s : string) : "" ++ s = s.
Proof. reflexivity. Qed.

Lemma append_cons (c : ascii) (s t : string) : String c s ++ t = String c (s ++ t).
Proof. reflexivity. Qed.

Lemma pretty_N_go_underscore_free (x : N) (s : string) :
  underscore_free s = true → underscore_free (pretty_N_go x s) = true.
Proof.
  revert s. induction (N.lt_wf_0 x) as [x _ IH]; intros s Hs.
  assert (x = 0 ∨ 0 < x)%N as [->|Hpos] by lia.
  - now rewrite pretty_N_go_0.
  - rewrite pretty_N_go_step by done. apply IH.
    + now apply N.div_lt.
    + simpl. rewrite Hs. unfold pretty_N_char. now repeat case_match.
Qed.

Lemma pretty_Z_underscore_free (z : Z) : underscore_free (pretty z) = true.
Proof.
  assert (HN : ∀ n : N, underscore_free (pretty n) = true).
  { intros n. unfold pretty, pretty_N. case_decide; [reflexivity|].
    now apply pretty_N_go_underscore_free. }
  destruct z as [|p|p]; [reflexivity | apply (HN (Npos p)) |].
  change (pretty (Zneg p)) with ("-" ++ pretty (Npos p)).
  rewrite append_cons, append_nil_l. simpl. apply HN.
Qed.

(** A string is cut at its first underscore in one way only. *)
Lemma cut_at_underscore (a a' b b' : string) :
  underscore_free a = true → underscore_free a' = true →
  a ++ "_" ++ b = a' ++ "_" ++ b' → a = a' ∧ b = b'.
Proof.
  revert a'. induction a as [|c a IH]; intros [|c' a'] Ha Ha' H;
    rewrite ?append_cons, ?append_nil_l in H; simpl in Ha, Ha'.
  - now injection H as ->.
  - injection H as <- _. now rewrite Ascii.eqb_refl in Ha'.
  - injection H as -> _. now rewrite Ascii.eqb_refl in Ha.
  - injection H as -> H.
    apply andb_true_iff in Ha as [_ Ha]. apply andb_true_iff in Ha' as [_ Ha'].
    destruct (IH a' Ha Ha' H) as [-> ->]. auto.
Qed.

(** X1. Evaluation ids made from different job ids, or at different clock
    readings, are different: the id determines both numbers. *)
Theorem evaluation_id_injective (job_id now job_id' now' : Z) :
  evaluation_id job_id now = evaluation_id job_id' now' →
  job_id = job_id' ∧ now = now'.
Proof.
  unfold evaluation_id. intros H.
  apply (f_equal (fun s => String.substring 5 (String.length s - 5) s)) in H.
  assert (Hcut : ∀ s, String.substring 5 (String.length ("eval_" ++ s) - 5) ("eval_" ++ s) = s).
  { intros s. rewrite !append_cons, append_nil_l. simpl. rewrite Nat.sub_0_r.
    induction s as [|c s IHs]; [reflexivity | simpl; now rewrite IHs]. }
  rewrite !Hcut in H.
  apply cut_at_underscore in H as [Hj Hn]; try apply pretty_Z_underscore_free.
  split; now apply (inj pretty).
Qed.

Lemma evaluation_id_injective_witness :
  evaluation_id 12 1000 = "eval_12_1000" ∧
  (evaluation_id 12 1000 = evaluation_id 12 1000 → 12 = 12 ∧ 1000 = 1000) ∧
  evaluation_id 1 21000 ≠ evaluation_id 12 1000.
Proof.
  split; [reflexivity|]. split.
  - apply evaluation_id_injective.
  - intros H. apply evaluation_id_injective in H as [H _]. discriminate H.
Defined.

(** ** File names of an upload *)

(** One step of [replace_gz], with the test on the first three characters
    spelled out. *)
Lemma replace_gz_cons (c : ascii) (rest : string) :
  replace_gz (String c rest)
  = match rest with
    | String c2 (String c3 r) =>
        if Ascii.eqb c "." && Ascii.eqb c2 "g" && Ascii.eqb c3 "z"
        then replace_gz r
        else String c (replace_gz rest)
    | _ => String c (replace_gz rest)
    end.
Proof.
  destruct rest as [|c2 [|c3 r]].
  - destruct c as [[] [] [] [] [] [] [] []]; reflexivity.
  - destruct c as [[] [] [] [] [] [] [] []]; try reflexivity.
    destruct c2 as [[] [] [] [] [] [] [] []]; reflexivity.
  - destruct c as [[] [] [] [] [] [] [] []]; try reflexivity.
    destruct c2 as [[] [] [] [] [] [] [] []]; try reflexivity.
    destruct c3 as [[] [] [] [] [] [] [] []]; reflexivity.
Qed.

Lemma replace_gz_app_gz (a b : string) :
  replace_gz (a ++ ".gz" ++ b) = replace_gz a ++ replace_gz b.
Proof.
  remember (String.length a) as n eqn:Hn.
  revert a Hn. induction (lt_wf n) as [n _ IH]. intros a ->.
  destruct a as [|c a1]; [reflexivity|].
  assert (IH' : ∀ a', (String.length a' < String.length (String c a1))%nat →
                      replace_gz (a' ++ ".gz" ++ b) = replace_gz a' ++ replace_gz b)
    by (intros a' Hlt; now apply (IH _ Hlt)).
  clear IH. simpl in IH'.
  rewrite append_cons, !replace_gz_cons.
  destruct a1 as [|c2 [|c3 r]]; rewrite ?append_cons, ?append_nil_l.
  - destruct (Ascii.eqb c "."); reflexivity.
  - assert (Hc : Ascii.eqb c "." && Ascii.eqb c2 "g" && Ascii.eqb "." "z" = false)
      by (destruct (Ascii.eqb c "."), (Ascii.eqb c2 "g"); reflexivity).
    rewrite Hc. f_equal. apply (IH' (String c2 "")). simpl. lia.
  - destruct (Ascii.eqb c "." && Ascii.eqb c2 "g" && Ascii.eqb c3 "z").
    + apply (IH' r). simpl. lia.
    + rewrite append_cons. f_equal.
      apply (IH' (String c2 (String c3 r))). simpl. lia.
Qed.

Lemma replace_gz_no_occurrence (name : string) :
  (∀ a b, name ≠ a ++ ".gz" ++ b) → replace_gz name = name.
Proof.
  induction name as [|c rest IH]; intros Hno; [reflexivity|].
  assert (Hrest : replace_gz rest = rest).
  { apply IH. intros a b ->. apply (Hno (String c a) b). reflexivity. }
  rewrite replace_gz_cons, Hrest.
  destruct rest as [|c2 [|c3 r]]; try reflexivity.
  destruct (Ascii.eqb c "." && Ascii.eqb c2 "g" && Ascii.eqb c3 "z") eqn:E; [|reflexivity].
  apply andb_true_iff in E as [E E3]. apply andb_true_iff in E as [E1 E2].
  apply Ascii.eqb_eq in E1, E2, E3. subst.
  now destruct (Hno "" r).
Qed.

Lemma replace_gz_length (name : string) :
  (String.length (replace_gz name) ≤ String.length name)%nat.
Proof.
  remember (String.length name) as n eqn:Hn.
  revert name Hn. induction (lt_wf n) as [n _ IH]. intros name ->.
  destruct name as [|c rest]; [reflexivity|].
  rewrite replace_gz_cons.
  assert (Hrest : (String.length (replace_gz rest) ≤ String.length rest)%nat)
    by (apply (IH (String.length rest)); [simpl; lia | reflexivity]).
  destruct rest as [|c2 [|c3 r]]; try (simpl in *; lia).
  destruct (Ascii.eqb c "." && Ascii.eqb c2 "g" && Ascii.eqb c3 "z").
  - assert ((String.length (replace_gz r) ≤ String.length r)%nat)
      by (apply (IH (String.length r)); [simpl; lia | reflexivity]).
    simpl. lia.
  - simpl in *. lia.
Qed.

Lemma upload_filename_some (name : string) : upload_filename (Some name) = replace_gz name.
Proof. now destruct name. Qed.

(** X2. The file names [handle_upload] reports: an absent or empty name
    gives the empty string; a name in which [.gz] does not occur is
    reported unchanged; and every [.gz] is dropped wherever it stands, not
    only as the extension, so that the reported name is never longer than
    the uploaded one. *)
Theorem upload_filename_drops_every_gz :
  upload_filename None = "" ∧ upload_filename (Some "") = "" ∧
  (∀ name, (∀ a b, name ≠ a ++ ".gz" ++ b) → upload_filename (Some name) = name) ∧
  (∀ a b, upload_filename (Some (a ++ ".gz" ++ b))
          = upload_filename (Some a) ++ upload_filename (Some b)) ∧
  (∀ name, (String.length (upload_filename (Some name)) ≤ String.length name)%nat).
Proof.
  split; [reflexivity|]. split; [reflexivity|]. split; [|split].
  - intros name H. rewrite upload_filename_some. now apply replace_gz_no_occurrence.
  - intros a b. rewrite !upload_filename_some. apply replace_gz_app_gz.
  - intros name. rewrite upload_filename_some. apply replace_gz_length.
Qed.

Lemma upload_filename_drops_every_gz_witness :
  upload_filename (Some "model.pkl") = "model.pkl" ∧
  upload_filename (Some ("my" ++ ".gz" ++ "ip.gz")) = "myip".
Proof.
  destruct upload_filename_drops_every_gz as (_ & _ & Hsame & Hdrop & _).
  split.
  - apply Hsame. intros a b H.
    do 9 (destruct a as [|? a]; rewrite ?append_cons, ?append_nil_l in H;
          [discriminate H | injection H as _ H]).
    destruct a; rewrite ?append_cons, ?append_nil_l in H; discriminate H.
  - rewrite Hdrop. reflexivity.
Defined.

(** ** The overrides the materializer reads *)

Lemma dict_lookup_other (k k' : string) (v : json) (items : list (string * json)) :
  k' ≠ k → dict_lookup k' ((k, v) :: items) = dict_lookup k' items.
Proof. intros H. simpl. apply String.eqb_neq in H. now rewrite H. Qed.

(** X3. The materializer looks at seven top-level keys of the overrides
    and at nothing else: overrides that agree on these keys give the same
    outcome, so an entry under any other key is dropped without an
    error. *)
Theorem materialize_reads_seven_keys (config_data config_data' : list (string * json)) :
  (∀ k, In k override_keys → dict_lookup k config_data = dict_lookup k config_data') →
  materialize config_data = materialize config_data'.
Proof.
  intros H. unfold materialize, get2, get3, py_get. cbv beta iota.
  unfold override_keys in H.
  rewrite !(H "dataset"), !(H "protected_attributes"), !(H "target_column"),
    !(H "sampling"), !(H "post_processing"), !(H "model"), !(H "metrics")
    by (simpl; tauto).
  reflexivity.
Qed.

Lemma materialize_reads_seven_keys_witness :
  materialize [("colour", JStr "red"); ("target_column", JStr "wage")]
  = materialize [("target_column", JStr "wage")].
Proof.
  apply materialize_reads_seven_keys. intros k Hk. apply dict_lookup_other.
  simpl in Hk. intros ->.
  repeat (destruct Hk as [Hk|Hk]; [discriminate Hk|]). exact Hk.
Defined.


Lemma get2_raise (config_data : list (string * json)) (k1 k2 : string) (dflt : json)
    (e : exn) :
  get2 config_data k1 k2 dflt = Raise e →
  ∃ v, json_path [k1] (JDict config_data) = Some v ∧ is_dict v = false ∧ e = no_get v.
Proof.
  unfold get2, py_get, no_get. cbn.
  destruct (dict_lookup k1 config_data) as [v|]; [|discriminate].
  destruct v; cbn; intros [= <-]; eexists; repeat split.
Qed.

Lemma get3_raise (config_data : list (string * json)) (k1 k2 k3 : string) (dflt : json)
    (e : exn) :
  get3 config_data k1 k2 k3 dflt = Raise e →
  ∃ p v, (p = [k1] ∨ p = [k1; k2]) ∧
         json_path p (JDict config_data) = Some v ∧ is_dict v = false ∧ e = no_get v.
Proof.
  unfold get3, py_get, no_get. cbn.
  destruct (dict_lookup k1 config_data) as [v|] eqn:E1; [|discriminate].
  destruct v as [| | | | | |items]; cbn;
    try (intros [= <-]; exists [k1]; eexists; cbn; rewrite E1;
         split; [now left | repeat split]).
  destruct (dict_lookup k2 items) as [v|] eqn:E2; [|discriminate].
  destruct v; cbn; intros [= <-]; exists [k1; k2]; eexists; cbn; rewrite E1, E2;
    (split; [now right | repeat split]).
Qed.

(** When the materializer raises, the exception is the [AttributeError]
    of calling [.get] on the value of a mapping slot. *)
Lemma materialize_raise_text (config_data : list (string * json)) (e : exn) :
  materialize config_data = Raise e →
  ∃ p v, In p mapping_slots ∧ json_path p (JDict config_data) = Some v ∧
         is_dict v = false ∧ e = no_get v.
Proof.
  unfold materialize. rewrite !py_get_top. intros H.
  repeat match type of H with
  | (get2 config_data ?k1 ?k2 ?dflt ≫= _) = Raise _ =>
      apply bind_raise_inv in H as [H|(? & _ & H)];
      [apply get2_raise in H as (v & Hv & Hv' & ->);
       exists [k1], v; simpl; tauto|]
  | (get3 config_data ?k1 ?k2 ?k3 ?dflt ≫= _) = Raise _ =>
      apply bind_raise_inv in H as [H|(? & _ & H)];
      [apply get3_raise in H as (p & v & [-> | ->] & Hv & Hv' & ->);
       [exists [k1], v | exists [k1; k2], v]; simpl; tauto|]
  | (Ok _ ≫= _) = Raise _ =>
      apply bind_raise_inv in H as [H|(? & _ & H)]; [discriminate H|]
  end.
  discriminate H.
Qed.

(** ** Submission: every way it can end *)

Ltac exec_all :=
  cbn [set_db set_db_writes set_redis set_job_counter set_fs set_cwd set_printed
       set_background_tasks set_calls
       db db_writes redis job_counter fs cwd loop_time printed background_tasks
       calls faults fst snd] in *.

(** Every execution of a submission, sorted by how it ends. *)
Lemma submission_cases (env : Env) (config_data : list (string * json))
    (tenant : string) (w : World) :
  let out := create_config_and_run_evaluation env config_data tenant w in
  let job_id := job_counter w + 1 in
  let eval_id := evaluation_id job_id (loop_time w) in
  (out.1 = Ok (JSONResponse 202
                 (JDict [("message", JStr "Configuration created and evaluation started");
                         ("job_id", JInt job_id);
                         ("eval_id", JStr eval_id);
                         ("config_path", JStr config_file)])) ∧
   db w !! (tenant, eval_id) = None ∧
   (∃ cfg model_name dataset_name model_task label_behavior,
      materialize config_data = Ok cfg ∧
      get2 config_data "model" "model_id" (JStr "Unknown Model") = Ok model_name ∧
      get2 config_data "dataset" "name" (JStr "Unknown Dataset") = Ok dataset_name ∧
      get2 config_data "model" "model_task" (JStr "binary_classification")
      = Ok model_task ∧
      get2 config_data "model" "label_behavior" (JStr "binary") = Ok label_behavior ∧
      db out.2
      = <[(tenant, eval_id) :=
            {| rec_model_name := model_name;
               rec_dataset_name := dataset_name;
               rec_model_task := model_task;
               rec_label_behavior := label_behavior;
               rec_config_data := json_dumps env cfg;
               rec_status := "pending";
               rec_results := JNull |}]> (db w) ∧
      fs out.2 = <[resolve (cwd w) config_file := yaml_dump env cfg]> (fs w)) ∧
   job_counter out.2 = job_id ∧
   background_tasks out.2
   = (background_tasks w ++ [RunEvaluation job_id config_file eval_id tenant])%list)
  ∨
  ((∃ detail, out.1 = Raise (HTTPException 500
                 ("Failed to create config and start evaluation: " ++ detail))) ∧
   db out.2 = db w ∧
   background_tasks out.2 = background_tasks w).
Proof.
  intros out job_id eval_id. subst out job_id eval_id.
  unfold evaluation_id, config_file.
  unfold_controllers. exec.
  repeat (case_match; simplify_eq; exec).
  all: try (right; split; [eexists; reflexivity | split; reflexivity]).
  left. exec_all.
  split; [reflexivity|]. split; [assumption|].
  split; [|split; reflexivity].
  eexists _, _, _, _, _. repeat (split; [eassumption || reflexivity|]). reflexivity.
Qed.

(** X4. However a submission ends, a run is scheduled exactly when a
    fresh pending record was stored: either the answer is 202, the record
    is new, pending, without results and holds the serialized
    configuration, and one task for that record was appended; or the only
    thing that leaves is the [HTTPException] 500 of the controller, and
    neither a record nor a task was added. *)
Theorem submission_all_or_nothing (env : Env) (config_data : list (string * json))
    (tenant : string) (w : World) :
  let out := create_config_and_run_evaluation env config_data tenant w in
  let job_id := job_counter w + 1 in
  let eval_id := evaluation_id job_id (loop_time w) in
  (out.1 = Ok (JSONResponse 202
                 (JDict [("message", JStr "Configuration created and evaluation started");
                         ("job_id", JInt job_id);
                         ("eval_id", JStr eval_id);
                         ("config_path", JStr config_file)])) ∧
   db w !! (tenant, eval_id) = None ∧
   (∃ cfg r, materialize config_data = Ok cfg ∧
             db out.2 !! (tenant, eval_id) = Some r ∧
             rec_status r = "pending" ∧ rec_results r = JNull ∧
             rec_config_data r = json_dumps env cfg) ∧
   (∀ k, k ≠ (tenant, eval_id) → db out.2 !! k = db w !! k) ∧
   background_tasks out.2
   = (background_tasks w ++ [RunEvaluation job_id config_file eval_id tenant])%list)
  ∨
  ((∃ detail, out.1 = Raise (HTTPException 500
                 ("Failed to create config and start evaluation: " ++ detail))) ∧
   db out.2 = db w ∧
   background_tasks out.2 = background_tasks w).
Proof.
  intros out job_id eval_id.
  destruct (submission_cases env config_data tenant w)
    as [(Hr & Hfresh & (cfg & mn & dn & mt & lb & Hm & _ & _ & _ & _ & Hdb & _) & _ & Ht)
       |Hfail]; [left | now right].
  fold out job_id eval_id in Hr, Hfresh, Hdb, Ht.
  split; [exact Hr|]. split; [exact Hfresh|]. split; [|split; [|exact Ht]].
  - eexists cfg, _. split; [exact Hm|]. rewrite Hdb.
    split; [apply lookup_insert_eq|]. repeat split.
  - intros k Hk. rewrite Hdb. now apply lookup_insert_ne.
Qed.

(** X5. What the stored record says about a submission that went
    through. Its task and label behaviour are those of the configuration.
    Its model and dataset names are the overrides [model.model_id] and
    [dataset.name] when given, and otherwise [Unknown Model] and
    [Unknown Dataset], although the configuration then falls back to
    its own defaults for the same two fields. *)
Theorem record_names_follow_overrides (env : Env) (config_data : list (string * json))
    (tenant : string) (w : World) (resp : response) :
  let out := create_config_and_run_evaluation env config_data tenant w in
  let eval_id := evaluation_id (job_counter w + 1) (loop_time w) in
  out.1 = Ok resp →
  ∃ cfg r,
    materialize config_data = Ok cfg ∧
    db out.2 !! (tenant, eval_id) = Some r ∧
    json_path ["model"; "model_task"] cfg = Some (rec_model_task r) ∧
    json_path ["model"; "label_behavior"] cfg = Some (rec_label_behavior r) ∧
    rec_model_name r
    = default (JStr "Unknown Model") (json_path ["model"; "model_id"] (JDict config_data)) ∧
    json_path ["model"; "huggingface"; "model_id"] cfg
    = Some (default (JStr "TinyLlama/TinyLlama-1.1B-Chat-v1.0")
              (json_path ["model"; "model_id"] (JDict config_data))) ∧
    rec_dataset_name r
    = default (JStr "Unknown Dataset") (json_path ["dataset"; "name"] (JDict config_data)) ∧
    json_path ["dataset"; "name"] cfg
    = Some (default (JStr "adult-census-income")
              (json_path ["dataset"; "name"] (JDict config_data))).
Proof.
  intros out eval_id Hok.
  destruct (submission_cases env config_data tenant w)
    as [(_ & _ & (cfg & mn & dn & mt & lb & Hm & Hmn & Hdn & Hmt & Hlb & Hdb & _) & _)
       |((detail & Hfail) & _)];
    [|fold out in Hfail; congruence].
  fold out eval_id in Hdb.
  apply get2_ok_inv in Hmn, Hdn, Hmt, Hlb. subst mn dn mt lb.
  eexists cfg, _. split; [exact Hm|]. rewrite Hdb.
  split; [apply lookup_insert_eq|]. cbn [rec_model_task rec_label_behavior
    rec_model_name rec_dataset_name].
  assert (Hslot : ∀ o t, In (o, t) override_slots →
            json_path t cfg = match json_path o (JDict config_data) with
                              | Some x => Some x
                              | None => json_path t default_template
                              end)
    by (intros o t; now apply slot_override_or_default).
  rewrite (Hslot ["model"; "model_task"] ["model"; "model_task"]) by (simpl; tauto).
  rewrite (Hslot ["model"; "label_behavior"] ["model"; "label_behavior"])
    by (simpl; tauto).
  rewrite (Hslot ["model"; "model_id"] ["model"; "huggingface"; "model_id"])
    by (simpl; tauto).
  rewrite (Hslot ["dataset"; "name"] ["dataset"; "name"]) by (simpl; tauto).
  repeat split;
    match goal with
    | |- context [json_path ?p (JDict config_data)] =>
        destruct (json_path p (JDict config_data)); reflexivity
    end.
Qed.

Lemma record_names_follow_overrides_witness :
  first_submission.1
  = Ok (JSONResponse 202
          (JDict [("message", JStr "Configuration created and evaluation started");
                  ("job_id", JInt 1);
                  ("eval_id", JStr "eval_1_1000");
                  ("config_path", JStr "BiasAndFairnessModule/configs/config.yaml")])) ∧
  ∃ cfg r,
    materialize [] = Ok cfg ∧
    db first_submission.2 !! ("acme", "eval_1_1000") = Some r ∧
    rec_model_name r = JStr "Unknown Model" ∧
    json_path ["model"; "huggingface"; "model_id"] cfg
    = Some (JStr "TinyLlama/TinyLlama-1.1B-Chat-v1.0") ∧
    rec_dataset_name r = JStr "Unknown Dataset" ∧
    json_path ["dataset"; "name"] cfg = Some (JStr "adult-census-income").
Proof.
  assert (Hok : first_submission.1
    = Ok (JSONResponse 202
            (JDict [("message", JStr "Configuration created and evaluation started");
                    ("job_id", JInt 1);
                    ("eval_id", JStr "eval_1_1000");
                    ("config_path", JStr "BiasAndFairnessModule/configs/config.yaml")])))
    by (vm_compute; reflexivity).
  split; [exact Hok|].
  destruct (record_names_follow_overrides (sample_env 0 "" None) [] "acme"
              (empty_world no_faults) _ Hok)
    as (cfg & r & Hm & Hr & _ & _ & Hmn & Hmi & Hdn & Hdi).
  exists cfg, r. split; [exact Hm|]. split; [exact Hr|].
  split; [exact Hmn|]. split; [exact Hmi|]. split; [exact Hdn | exact Hdi].
Defined.

(** X6. Overrides with an ill-typed mapping slot are turned down before
    anything is written: the submission ends in the [HTTPException] 500
    whose detail carries the [AttributeError] text of the offending
    value, and the configuration file, the job counter, the records, the
    status store and the scheduled tasks are as they were. *)
Theorem submission_rejects_ill_typed (env : Env) (config_data : list (string * json))
    (tenant : string) (w : World) :
  faults w OS (calls w OS) = None →
  overrides_well_typed config_data = false →
  let out := create_config_and_run_evaluation env config_data tenant w in
  (∃ p v, In p mapping_slots ∧ json_path p (JDict config_data) = Some v ∧
          is_dict v = false ∧
          out.1 = Raise (HTTPException 500
                           ("Failed to create config and start evaluation: "
                            ++ "'" ++ type_name v ++ "' object has no attribute 'get'"))) ∧
  fs out.2 = fs w ∧ job_counter out.2 = job_counter w ∧ db out.2 = db w ∧
  redis out.2 = redis w ∧ background_tasks out.2 = background_tasks w.
Proof.
  intros HO Hwt out. subst out.
  destruct (materialize config_data) as [cfg|e] eqn:Hm.
  { apply ok_well_typed in Hm. congruence. }
  destruct (materialize_raise_text _ _ Hm) as (p & v & Hin & Hp & Hv & ->).
  run with HO, Hm.
  split; [|repeat split].
  exists p, v. repeat split; assumption.
Qed.

Lemma submission_rejects_ill_typed_witness :
  faults (empty_world no_faults) OS 0 = None ∧
  overrides_well_typed [("sampling", JList [JInt 10])] = false ∧
  let out := create_config_and_run_evaluation (sample_env 0 "" None)
               [("sampling", JList [JInt 10])] "acme" (empty_world no_faults) in
  (∃ p v, In p mapping_slots ∧
          json_path p (JDict [("sampling", JList [JInt 10])]) = Some v ∧
          is_dict v = false ∧
          out.1 = Raise (HTTPException 500
                           ("Failed to create config and start evaluation: "
                            ++ "'" ++ type_name v ++ "' object has no attribute 'get'"))) ∧
  fs out.2 = fs (empty_world no_faults) ∧ job_counter out.2 = 0 ∧
  db out.2 = db (empty_world no_faults) ∧
  redis out.2 = redis (empty_world no_faults) ∧ background_tasks out.2 = [].
Proof.
  split; [reflexivity|]. split; [reflexivity|].
  apply (submission_rejects_ill_typed (sample_env 0 "" None)
           [("sampling", JList [JInt 10])] "acme" (empty_world no_faults));
    reflexivity.
Defined.

(** X7. When the record store turns the insert down, the submission
    fails with the 500 [HTTPException] carrying the store's text, and no
    run is scheduled; but the shared configuration file has already been
    overwritten with this submission's configuration and a job id has
    been used up. *)
Theorem submission_store_failure_keeps_file (env : Env)
    (config_data : list (string * json)) (tenant : string) (w : World)
    (cfg : json) (msg : string) :
  quiet_sys OS w → quiet_sys Redis w →
  faults w DB (calls w DB) = Some msg →
  materialize config_data = Ok cfg →
  let out := create_config_and_run_evaluation env config_data tenant w in
  out.1 = Raise (HTTPException 500
                   ("Failed to create config and start evaluation: " ++ msg)) ∧
  fs out.2 = <[resolve (cwd w) config_file := yaml_dump env cfg]> (fs w) ∧
  job_counter out.2 = job_counter w + 1 ∧
  db out.2 = db w ∧
  background_tasks out.2 = background_tasks w.
Proof.
  intros HO HR HD Hm out. subst out. unfold quiet_sys in *.
  assert (Hwt : overrides_well_typed config_data = true) by (eapply ok_well_typed; eauto).
  unfold overrides_well_typed, mapping_slots in Hwt. cbn [forallb] in Hwt.
    rewrite !andb_true_iff in Hwt. destruct Hwt as (Hd & _ & _ & _ & Hmo & _).
    destruct (get2_cases config_data "model" "model_id" (JStr "Unknown Model"))
      as [[_ E1]|(v & e & Hv & Hv' & _)];
      [|unfold slot_well_typed in Hmo; rewrite Hv in Hmo; congruence].
    destruct (get2_cases config_data "dataset" "name" (JStr "Unknown Dataset"))
      as [[_ E2]|(v & e & Hv & Hv' & _)];
      [|unfold slot_well_typed in Hd; rewrite Hv in Hd; congruence].
    destruct (get2_cases config_data "model" "model_task" (JStr "binary_classification"))
      as [[_ E3]|(v & e & Hv & Hv' & _)];
      [|unfold slot_well_typed in Hmo; rewrite Hv in Hmo; congruence].
    destruct (get2_cases config_data "model" "label_behavior" (JStr "binary"))
      as [[_ E4]|(v & e & Hv & Hv' & _)];
      [|unfold slot_well_typed in Hmo; rewrite Hv in Hmo; congruence].
    unfold_controllers.
    repeat (progress (exec; rewrite ?HO, ?HR, ?Hm, ?E1, ?E2, ?E3, ?E4)).
    rewrite ?decide_False by discriminate. rewrite HD. exec.
    repeat split.
Qed.

(** ** Two submissions in a row *)

(** A submission that meets no failure, in full. *)
Lemma submission_success (env : Env) (config_data : list (string * json))
    (tenant : string) (w : World) (cfg : json) :
  quiet w →
  materialize config_data = Ok cfg →
  let job_id := job_counter w + 1 in
  let eval_id := evaluation_id job_id (loop_time w) in
  db w !! (tenant, eval_id) = None →
  let out := create_config_and_run_evaluation env config_data tenant w in
  (∃ r, db out.2 = <[(tenant, eval_id) := r]> (db w) ∧
        rec_config_data r = json_dumps env cfg ∧ rec_status r = "pending") ∧
  out.1 = Ok (JSONResponse 202
                (JDict [("message", JStr "Configuration created and evaluation started");
                        ("job_id", JInt job_id);
                        ("eval_id", JStr eval_id);
                        ("config_path", JStr config_file)])) ∧
  fs out.2 = <[resolve (cwd w) config_file := yaml_dump env cfg]> (fs w) ∧
  background_tasks out.2
  = (background_tasks w ++ [RunEvaluation job_id config_file eval_id tenant])%list ∧
  job_counter out.2 = job_id ∧ loop_time out.2 = loop_time w ∧ cwd out.2 = cwd w ∧
  faults out.2 = faults w.
Proof.
  intros Hq Hm job_id eval_id Hfresh out.
  destruct (submission_cases env config_data tenant w)
    as [(Hr & _ & (cfg' & mn & dn & mt & lb & Hm' & _ & _ & _ & _ & Hdb & Hfs) & Hjc & Ht)
       |((detail & Hfail) & _)].
  - fold out job_id eval_id in Hr, Hdb, Hfs, Hjc, Ht.
    assert (cfg' = cfg) as -> by congruence.
    split; [eexists; split; [exact Hdb|]; split; reflexivity|].
    split; [exact Hr|]. split; [exact Hfs|]. split; [exact Ht|]. split; [exact Hjc|].
    subst out. clear. unfold_controllers. exec.
    repeat (case_match; simplify_eq; exec); repeat split.
  - exfalso. fold out in Hfail. subst out. revert Hfail.
    subst job_id eval_id. unfold evaluation_id in Hfresh. unfold quiet in Hq.
    assert (Hwt : overrides_well_typed config_data = true) by (eapply ok_well_typed; eauto).
    unfold overrides_well_typed, mapping_slots in Hwt. cbn [forallb] in Hwt.
    rewrite !andb_true_iff in Hwt. destruct Hwt as (Hd & _ & _ & _ & Hmo & _).
    destruct (get2_cases config_data "model" "model_id" (JStr "Unknown Model"))
      as [[_ E1]|(v & e & Hv & Hv' & _)];
      [|unfold slot_well_typed in Hmo; rewrite Hv in Hmo; congruence].
    destruct (get2_cases config_data "dataset" "name" (JStr "Unknown Dataset"))
      as [[_ E2]|(v & e & Hv & Hv' & _)];
      [|unfold slot_well_typed in Hd; rewrite Hv in Hd; congruence].
    destruct (get2_cases config_data "model" "model_task" (JStr "binary_classification"))
      as [[_ E3]|(v & e & Hv & Hv' & _)];
      [|unfold slot_well_typed in Hmo; rewrite Hv in Hmo; congruence].
    destruct (get2_cases config_data "model" "label_behavior" (JStr "binary"))
      as [[_ E4]|(v & e & Hv & Hv' & _)];
      [|unfold slot_well_typed in Hmo; rewrite Hv in Hmo; congruence].
    unfold_controllers.
    repeat (progress (exec; rewrite ?Hq, ?Hm, ?E1, ?E2, ?E3, ?E4)).
    rewrite Hfresh. exec. discriminate.
Qed.

(** X8. Two submissions in a row, by any tenants and with any overrides
    that materialize: both are accepted under different evaluation ids;
    each record keeps the serialized configuration of its own submission;
    both scheduled runs are handed the same path; and the file at that
    path holds the second configuration only. *)
Theorem two_submissions_share_one_file (env : Env)
    (config_data1 config_data2 : list (string * json)) (tenant1 tenant2 : string)
    (w : World) (cfg1 cfg2 : json) :
  quiet w →
  materialize config_data1 = Ok cfg1 →
  materialize config_data2 = Ok cfg2 →
  let job1 := job_counter w + 1 in
  let job2 := job_counter w + 2 in
  let eval1 := evaluation_id job1 (loop_time w) in
  let eval2 := evaluation_id job2 (loop_time w) in
  db w !! (tenant1, eval1) = None →
  db w !! (tenant2, eval2) = None →
  let out1 := create_config_and_run_evaluation env config_data1 tenant1 w in
  let out2 := create_config_and_run_evaluation env config_data2 tenant2 out1.2 in
  eval1 ≠ eval2 ∧
  is_ok out1.1 = true ∧ is_ok out2.1 = true ∧
  background_tasks out2.2
  = (background_tasks w ++ [RunEvaluation job1 config_file eval1 tenant1;
                            RunEvaluation job2 config_file eval2 tenant2])%list ∧
  fs out2.2 !! resolve (cwd w) config_file = Some (yaml_dump env cfg2) ∧
  (∃ r1, db out2.2 !! (tenant1, eval1) = Some r1 ∧
         rec_config_data r1 = json_dumps env cfg1) ∧
  (∃ r2, db out2.2 !! (tenant2, eval2) = Some r2 ∧
         rec_config_data r2 = json_dumps env cfg2).
Proof.
  intros Hq Hm1 Hm2 job1 job2 eval1 eval2 Hf1 Hf2 out1 out2.
  assert (Hne : eval1 ≠ eval2).
  { intros H. apply evaluation_id_injective in H as [H _]. subst job1 job2. lia. }
  destruct (submission_success env config_data1 tenant1 w cfg1 Hq Hm1 Hf1)
    as ((r1 & Hdb1 & Hc1 & _) & Hr1 & Hfs1 & Ht1 & Hjc1 & Hlt1 & Hcwd1 & Hfl1).
  fold out1 job1 eval1 in Hdb1, Hr1, Hfs1, Ht1, Hjc1, Hlt1, Hcwd1, Hfl1.
  assert (Hq' : quiet out1.2) by (intros s n; rewrite Hfl1; apply Hq).
  assert (Hj2 : job_counter out1.2 + 1 = job2) by (rewrite Hjc1; subst job1 job2; lia).
  assert (Hf2' : db out1.2 !! (tenant2, evaluation_id (job_counter out1.2 + 1)
                                          (loop_time out1.2)) = None).
  { rewrite Hj2, Hlt1. fold eval2. rewrite Hdb1, lookup_insert_ne; [exact Hf2|].
    intros H. apply (f_equal snd) in H. exact (Hne H). }
  destruct (submission_success env config_data2 tenant2 out1.2 cfg2 Hq' Hm2 Hf2')
    as ((r2 & Hdb2 & Hc2 & _) & Hr2 & Hfs2 & Ht2 & _).
  fold out2 in Hdb2, Hr2, Hfs2, Ht2. rewrite Hj2, Hlt1 in Hdb2, Ht2. fold eval2 in Hdb2, Ht2.
  split; [exact Hne|]. split; [now rewrite Hr1|]. split; [now rewrite Hr2|].
  split; [|split; [|split]].
  - rewrite Ht2, Ht1, <- app_assoc. reflexivity.
  - rewrite Hfs2, Hcwd1. apply lookup_insert_eq.
  - exists r1. split; [|exact Hc1].
    rewrite Hdb2, lookup_insert_ne, Hdb1; [apply lookup_insert_eq|].
    intros H. apply (f_equal snd) in H. exact (Hne (eq_sym H)).
  - exists r2. split; [|exact Hc2]. rewrite Hdb2. apply lookup_insert_eq.
Qed.

Lemma two_submissions_share_one_file_witness :
  quiet (empty_world no_faults) ∧
  materialize [] = Ok default_template ∧
  materialize second_overrides = Ok second_config ∧
  evaluation_id 1 1000 ≠ evaluation_id 2 1000 ∧
  is_ok first_submission.1 = true ∧ is_ok second_submission.1 = true ∧
  fs second_submission.2 !! resolve "/app" config_file
  = Some (yaml_dump (sample_env 0 "" None) second_config) ∧
  (∃ r1, db second_submission.2 !! ("acme", evaluation_id 1 1000) = Some r1 ∧
         rec_config_data r1 = show_json default_template) ∧
  (∃ r2, db second_submission.2 !! ("globex", evaluation_id 2 1000) = Some r2 ∧
         rec_config_data r2 = show_json second_config).
Proof.
  assert (Hq : quiet (empty_world no_faults)) by (intros s n; reflexivity).
  split; [exact Hq|]. split; [reflexivity|]. split; [reflexivity|].
  destruct (two_submissions_share_one_file (sample_env 0 "" None) [] second_overrides
              "acme" "globex" (empty_world no_faults) default_template second_config
              Hq eq_refl eq_refl eq_refl eq_refl)
    as (Hne & H1 & H2 & _ & Hfs & Hr1 & Hr2).
  split; [exact Hne|]. split; [exact H1|]. split; [exact H2|].
  split; [exact Hfs|]. split; [exact Hr1 | exact Hr2].
Defined.

(** ** Evaluation Runner: further executions *)

Section RunnerMore.

Variable env : Env.
Variables (job_id : Z) (config_path eval_id tenant : string).

(** X9. When the external computation exits with code 0 and leaves a
    results file that [json.load] rejects, the run still ends normally:
    the parser's exception is caught, the record becomes [failed], and
    the status payload carries the text of that exception as its error. *)
Theorem runner_unparsable_artifact (w : World) (r : EvalRecord) (p : CompletedProcess)
    (files : gmap string string) (text : string) (e : exn) :
  quiet w →
  db w !! (tenant, eval_id) = Some r →
  subprocess_run env (cli_args env config_path) (module_dir w) (fs w) = (p, files) →
  returncode p = 0 →
  files !! results_path w = Some text →
  json_load env text = Raise e →
  let out := run_bias_fairness_evaluation env job_id config_path eval_id tenant w in
  out.1 = Ok tt ∧
  db out.2 !! (tenant, eval_id) = Some (with_status "failed" JNull r) ∧
  redis out.2 !! job_id
  = Some (JDict [("status", JStr "failed");
                 ("eval_id", JStr eval_id);
                 ("error", JStr (str_exn e));
                 ("message", JStr ("Evaluation failed: " ++ str_exn e))]) ∧
  db_writes out.2
  = (db_writes w ++ [(tenant, eval_id, "running"); (tenant, eval_id, "failed")])%list.
Proof.
  intros Hq Hr Hp Hc Hf Hj out. subst out. unfold quiet, results_path, module_dir in *.
  pose proof (exists_true _ _ _ Hf) as Hx.
  run with Hq, Hp, Hc, Hx, Hf, Hj.
  split; [reflexivity|]. split; [|split].
  - rewrite !lookup_alter_eq, Hr. reflexivity.
  - apply lookup_insert_eq.
  - now rewrite <- app_assoc.
Qed.

(** X10. Every execution of the runner ends in one of three ways. It
    returns after the writes [running] and one terminal status; or it
    returns after the single write [failed], which happens when the
    [running] write was turned down; or it raises, which happens only
    when the write of the exception handler is turned down, and then no
    terminal status was written, nothing was sent to the status store and
    nothing was printed. *)
Theorem runner_outcomes (w : World) :
  let out := run_bias_fairness_evaluation env job_id config_path eval_id tenant w in
  (out.1 = Ok tt ∧
   ∃ t, (t = "completed" ∨ t = "failed") ∧
        db_writes out.2
        = (db_writes w ++ [(tenant, eval_id, "running"); (tenant, eval_id, t)])%list)
  ∨ (out.1 = Ok tt ∧
     (∃ msg, faults w DB (calls w DB) = Some msg) ∧
     db_writes out.2 = (db_writes w ++ [(tenant, eval_id, "failed")])%list)
  ∨ ((∃ msg, out.1 = Raise (Exception msg)) ∧
     (db_writes out.2 = db_writes w
      ∨ db_writes out.2 = (db_writes w ++ [(tenant, eval_id, "running")])%list) ∧
     redis out.2 = redis w ∧ printed out.2 = printed w).
Proof.
  unfold_controllers. exec.
  repeat (case_match; simplify_eq; exec).
  all: try (left; split; [reflexivity|];
            eexists; split; [|rewrite <- app_assoc; reflexivity]; tauto).
  all: try (right; left; split; [reflexivity|]; split; [eauto | reflexivity]).
  all: right; right; split; [eauto|]; split; [|split; reflexivity]; auto.
Qed.

End RunnerMore.


Section RunnerState.

Variable env : Env.
Variables (job_id : Z) (config_path eval_id tenant : string).

(** X11. In every execution the runner leaves alone what is not its own:
    the records under any other key, the status payloads of any other
    job, the job counter and the scheduled tasks are as before, and of
    its own record it changes nothing but the status and the results. *)
Theorem runner_touches_only_its_own (w : World) :
  let out := run_bias_fairness_evaluation env job_id config_path eval_id tenant w in
  (∀ k, k ≠ (tenant, eval_id) → db out.2 !! k = db w !! k) ∧
  (∀ j, j ≠ job_id → redis out.2 !! j = redis w !! j) ∧
  job_counter out.2 = job_counter w ∧
  background_tasks out.2 = background_tasks w ∧
  (∀ r, db w !! (tenant, eval_id) = Some r →
        ∃ status results,
          db out.2 !! (tenant, eval_id) = Some (with_status status results r)).
Proof.
  unfold_controllers. exec.
  repeat (case_match; simplify_eq; exec).
  all: split; [intros k Hk; now rewrite ?lookup_alter_ne by congruence|].
  all: split; [intros j Hj; now rewrite ?lookup_insert_ne by congruence|].
  all: split; [reflexivity|]; split; [reflexivity|].
  all: intros r Hr; rewrite ?lookup_alter_eq, Hr.
  all: try (eexists _, _; reflexivity).
  all: exists (rec_status r), (rec_results r); now destruct r.
Qed.

(** X12. The runner changes the working directory of the process and
    never changes it back: once the [running] write and [os.chdir] went
    through, the process is left in the module directory however the run
    ends; if either of them raised, the directory is as before. *)
Theorem runner_leaves_module_dir (w : World) :
  let out := run_bias_fairness_evaluation env job_id config_path eval_id tenant w in
  cwd out.2
  = match faults w DB (calls w DB), faults w OS (calls w OS) with
    | None, None => resolve (cwd w) "BiasAndFairnessModule"
    | _, _ => cwd w
    end.
Proof.
  unfold_controllers. exec.
  destruct (faults w DB (calls w DB)) eqn:HD; exec.
  - repeat (case_match; simplify_eq; exec); reflexivity.
  - rewrite decide_False by discriminate.
    destruct (faults w OS (calls w OS)) eqn:HO; exec;
      repeat (case_match; simplify_eq; exec); reflexivity.
Qed.

End RunnerState.

(** ** The status store seen from the controllers *)

(** X13. [update_job_status] never raises. When the status store takes
    the payload it is stored under the job id and nothing is printed;
    when the store raises, the payload is dropped, the store is as
    before, and one line with the text of the exception is printed. *)
Theorem update_job_status_contains_failure (job_id : Z) (status_data : json) (w : World) :
  let out := update_job_status job_id status_data w in
  out.1 = Ok tt ∧
  match faults w Redis (calls w Redis) with
  | None => redis out.2 = <[job_id := status_data]> (redis w) ∧ printed out.2 = printed w
  | Some msg =>
      redis out.2 = redis w ∧
      printed out.2
      = (printed w ++ [("Failed to update job status: " ++ msg)%string])%list
  end.
Proof.
  unfold_controllers. exec.
  destruct (faults w Redis (calls w Redis)); exec; auto.
Qed.


(** ** Deleting an evaluation twice *)

(** X15. With the record store answering, deleting the same evaluation a
    second time ends in the 404 [HTTPException] and changes nothing,
    whether or not the first delete found the record. *)
Theorem delete_is_not_repeatable (eval_id tenant : string) (w : World) :
  quiet_sys DB w →
  let out1 := delete_bias_fairness_evaluation_controller eval_id tenant w in
  let out2 := delete_bias_fairness_evaluation_controller eval_id tenant out1.2 in
  out2.1 = Raise (HTTPException 404 ("Evaluation with ID " ++ eval_id ++ " not found")) ∧
  db out2.2 = db out1.2 ∧
  db out1.2 !! (tenant, eval_id) = None.
Proof.
  intros HD out1 out2. subst out2 out1. unfold quiet_sys in HD.
  assert (Hb : ∀ m : gmap (string * string) EvalRecord,
            bool_decide (is_Some (delete (tenant, eval_id) m !! (tenant, eval_id))) = false).
  { intros m. apply bool_decide_eq_false. rewrite lookup_delete_eq. now intros [? ?]. }
  unfold_controllers. exec. rewrite HD. exec.
  destruct (bool_decide (is_Some (db w !! (tenant, eval_id)))); exec;
    rewrite HD; exec; rewrite Hb; exec;
    (split; [reflexivity|]); (split; [|apply lookup_delete_eq]);
    apply delete_id, lookup_delete_eq.
Qed.

(** ** From a run to the poll *)

(** Work out which call of a collaborator comes next. *)
Ltac norm_calls :=
  repeat match goal with
  | |- context [decide (?a = ?b)] =>
      destruct (decide (a = b)); [try discriminate | try congruence]
  end.

Section RunAndPoll.

Variable env : Env.
Variables (job_id : Z) (config_path eval_id tenant : string).



(** X17. When the status store is down at the moment the run reports
    its outcome, the run still ends normally with its terminal status in
    the record, but the payload is gone for good: a line is printed, and
    a later poll, made when the store answers again, finds nothing. *)
Theorem lost_payload_is_never_polled (w : World) (msg asking : string) :
  quiet_sys DB w →
  faults w Redis (calls w Redis) = Some msg →
  faults w Redis (S (calls w Redis)) = None →
  redis w !! job_id = None →
  let out := run_bias_fairness_evaluation env job_id config_path eval_id tenant w in
  out.1 = Ok tt ∧
  (∃ t, (t = "completed" ∨ t = "failed") ∧
        db_writes out.2
        = (db_writes w ++ [(tenant, eval_id, "running"); (tenant, eval_id, t)])%list) ∧
  printed out.2 = (printed w ++ [("Failed to update job status: " ++ msg)%string])%list ∧
  (get_upload_status job_id asking out.2).1 = Ok (Response 204).
Proof.
  unfold quiet_sys. intros HD HR1 HR2 Hnone.
  run with HD.
  repeat (norm_calls; rewrite ?HD, ?HR1, ?HR2, ?Hnone; exec;
          try (case_match; simplify_eq; exec)).
  all: exec_all;
    repeat match goal with
    | H : context [decide (?a = ?b)] |- _ =>
        destruct (decide (a = b)); [try discriminate | try congruence]
    end;
    simplify_eq.
  all: try (split; [reflexivity|]; split; [|split; reflexivity];
    eexists; split; [|rewrite <- app_assoc; reflexivity]; tauto).
Qed.
End RunAndPoll.

(** ** The controllers over the query layer *)

Ltac unfold_readers :=
  unfold get_all_metrics, get_metrics, delete_metrics,
    get_all_bias_fairness_evaluations_controller,
    get_bias_fairness_evaluation_by_id_controller, db_commit, reraise_http,
    try_except, raise, call, mbind, M_bind, mret, M_ret.

Section Readers.

Variable get_all_metrics_query : string → M (list MetricsRow).
Variable get_metrics_by_id : Z → string → M (option MetricsRow).
Variable delete_metrics_by_id : Z → string → M bool.
Variable get_all_bias_fairness_evaluations : string → M json.
Variable get_bias_fairness_evaluation_by_id :
  string → string → M (option (list (string * json))).

(** X18. The two listing controllers turn everything that goes wrong
    into a 500: whatever the record store or the query raises, an
    [HTTPException] of the query layer included, leaves as
    [HTTPException] 500 whose detail is the controller's prefix followed
    by the text of the exception. Otherwise the answer is 200, with one
    entry per row for the metrics and the query's value as it is for the
    evaluations. The controllers add no effect of their own. *)
Theorem list_controllers_wrap_everything (tenant : string) (w : World) :
  let rows := call DB (get_all_metrics_query tenant) w in
  let evaluations := call DB (get_all_bias_fairness_evaluations tenant) w in
  let out1 := get_all_metrics get_all_metrics_query tenant w in
  let out2 := get_all_bias_fairness_evaluations_controller
                get_all_bias_fairness_evaluations tenant w in
  (out1.2 = rows.2 ∧
   match rows.1 with
   | Ok l => ∃ items, out1.1 = Ok (JSONResponse 200 (JList items)) ∧
                      length items = length l
   | Raise e =>
       out1.1 = Raise (HTTPException 500 ("Failed to retrieve metrics, " ++ str_exn e))
   end) ∧
  (out2.2 = evaluations.2 ∧
   match evaluations.1 with
   | Ok v => out2.1 = Ok (JSONResponse 200 v)
   | Raise e =>
       out2.1 = Raise (HTTPException 500 ("Failed to retrieve evaluations: " ++ str_exn e))
   end).
Proof.
  unfold_readers. cbn [fst snd].
  destruct (faults w DB (calls w DB)); cbn [fst snd].
  - repeat split.
  - split.
    + destruct (get_all_metrics_query tenant _) as [[l|e] w1]; cbn [fst snd];
        (split; [reflexivity|]); [|reflexivity].
      eexists; split; [reflexivity|]. apply length_map.
    + destruct (get_all_bias_fairness_evaluations tenant _) as [[v|e] w1];
        cbn [fst snd]; split; reflexivity.
Qed.

(** X19. The two controllers that read one item by id, in every
    execution: an item that was found is answered with 200; an item that
    was not found (for an evaluation, also an empty mapping) gives the
    404 [HTTPException] naming the id, which the handler lets through
    instead of wrapping it; an [HTTPException] of the query layer passes
    unchanged; any other exception becomes the 500 [HTTPException] with
    the controller's prefix. *)
Theorem by_id_controllers_outcomes (id : Z) (eval_id tenant : string) (w : World) :
  let row := call DB (get_metrics_by_id id tenant) w in
  let evaluation := call DB (get_bias_fairness_evaluation_by_id eval_id tenant) w in
  let out1 := get_metrics get_metrics_by_id id tenant w in
  let out2 := get_bias_fairness_evaluation_by_id_controller
                get_bias_fairness_evaluation_by_id eval_id tenant w in
  (out1.2 = row.2 ∧
   out1.1 = match row.1 with
            | Ok (Some r) =>
                Ok (JSONResponse 200
                      (JDict [("model_id", row_model_id r); ("data_id", row_data_id r);
                              ("metrics_id", row_metrics_id r);
                              ("metrics", row_metrics r)]))
            | Ok None =>
                Raise (HTTPException 404 ("Metrics with ID " ++ pretty id ++ " not found"))
            | Raise (HTTPException c d) => Raise (HTTPException c d)
            | Raise (Exception msg) =>
                Raise (HTTPException 500 ("Failed to retrieve metrics, " ++ msg))
            end) ∧
  (out2.2 = evaluation.2 ∧
   out2.1 = match evaluation.1 with
            | Ok (Some (item :: items)) => Ok (JSONResponse 200 (JDict (item :: items)))
            | Ok (Some []) | Ok None =>
                Raise (HTTPException 404
                         ("Evaluation with ID " ++ eval_id ++ " not found"))
            | Raise (HTTPException c d) => Raise (HTTPException c d)
            | Raise (Exception msg) =>
                Raise (HTTPException 500 ("Failed to retrieve evaluation: " ++ msg))
            end).
Proof.
  unfold_readers. cbn [fst snd].
  destruct (faults w DB (calls w DB)); cbn [fst snd str_exn].
  - repeat split.
  - split.
    + destruct (get_metrics_by_id id tenant _) as [[[r|]|[m|c d]] w1];
        cbn [fst snd str_exn]; split; reflexivity.
    + destruct (get_bias_fairness_evaluation_by_id eval_id tenant _)
        as [[[[|item items]|]|[m|c d]] w1];
        cbn [fst snd str_exn]; split; reflexivity.
Qed.

(** X20. [delete_metrics] commits last and only after a deletion. It
    answers 204 exactly when the query reported a deletion and the commit
    that follows went through; when the query reported none, the 404
    [HTTPException] leaves and no commit is attempted; a commit that
    fails gives the 500 [HTTPException] with the text of the failure. An
    [HTTPException] of the query layer passes unchanged and any other
    exception becomes a 500. *)
Theorem delete_metrics_commits_last (id : Z) (tenant : string) (w : World) :
  let asked := call DB (delete_metrics_by_id id tenant) w in
  let out := delete_metrics delete_metrics_by_id id tenant w in
  match asked.1 with
  | Ok true =>
      calls out.2 DB = S (calls asked.2 DB) ∧
      out.1 = match faults asked.2 DB (calls asked.2 DB) with
              | None => Ok (Response 204)
              | Some msg =>
                  Raise (HTTPException 500 ("Failed to delete metrics, " ++ msg))
              end
  | Ok false =>
      out = (Raise (HTTPException 404 ("Metrics with ID " ++ pretty id ++ " not found")),
             asked.2)
  | Raise (HTTPException c d) => out = (Raise (HTTPException c d), asked.2)
  | Raise (Exception msg) =>
      out = (Raise (HTTPException 500 ("Failed to delete metrics, " ++ msg)), asked.2)
  end.
Proof.
  unfold_readers. cbn [fst snd].
  destruct (faults w DB (calls w DB)); cbn [fst snd str_exn negb]; [reflexivity|].
  destruct (delete_metrics_by_id id tenant _) as [[[|]|[m|c d]] w1];
    cbn [fst snd str_exn negb]; try reflexivity.
  destruct (faults w1 DB (calls w1 DB)); cbn [fst snd str_exn calls set_calls];
    rewrite decide_True by reflexivity; split; reflexivity.
Qed.

(** X21. None of the five controllers lets anything but an
    [HTTPException] out, whatever the record store and the query layer
    do. *)
Theorem query_controllers_raise_only_http (id : Z) (eval_id tenant : string) (w : World) :
  let only_http (r : result response) :=
    match r with Raise (Exception _) => False | _ => True end in
  only_http (get_all_metrics get_all_metrics_query tenant w).1 ∧
  only_http (get_metrics get_metrics_by_id id tenant w).1 ∧
  only_http (delete_metrics delete_metrics_by_id id tenant w).1 ∧
  only_http (get_all_bias_fairness_evaluations_controller
               get_all_bias_fairness_evaluations tenant w).1 ∧
  only_http (get_bias_fairness_evaluation_by_id_controller
               get_bias_fairness_evaluation_by_id eval_id tenant w).1.
Proof.
  intros only_http. subst only_http. unfold_readers. cbn [fst snd].
  repeat split; repeat (case_match; simplify_eq; cbn [fst snd negb] in *); exact I.
Qed.

End Readers.

(** ** The properties above at sample inputs *)

Lemma submission_store_failure_keeps_file_witness :
  quiet_sys OS (empty_world (db_down_for 1)) ∧
  quiet_sys Redis (empty_world (db_down_for 1)) ∧
  faults (empty_world (db_down_for 1)) DB (calls (empty_world (db_down_for 1)) DB)
  = Some "connection refused" ∧
  materialize [] = Ok default_template ∧
  let out := create_config_and_run_evaluation (sample_env 0 "" None) [] "acme"
               (empty_world (db_down_for 1)) in
  out.1 = Raise (HTTPException 500
                   "Failed to create config and start evaluation: connection refused") ∧
  fs out.2 !! "/app/BiasAndFairnessModule/configs/config.yaml"
  = Some ("yaml " ++ show_json default_template) ∧
  job_counter out.2 = 1 ∧
  db out.2 = ∅ ∧
  background_tasks out.2 = [].
Proof.
  assert (HO : quiet_sys OS (empty_world (db_down_for 1))) by (intros n; reflexivity).
  assert (HR : quiet_sys Redis (empty_world (db_down_for 1))) by (intros n; reflexivity).
  assert (Hm : materialize [] = Ok default_template) by (vm_compute; reflexivity).
  split; [exact HO|]. split; [exact HR|]. split; [reflexivity|]. split; [exact Hm|].
  destruct (submission_store_failure_keeps_file (sample_env 0 "" None) [] "acme"
              (empty_world (db_down_for 1)) default_template "connection refused"
              HO HR eq_refl Hm) as (H1 & H2 & H3 & H4 & H5).
  intros out. fold out in H1, H2, H3, H4, H5.
  split; [exact H1|]. split; [rewrite H2; apply lookup_insert_eq|].
  split; [exact H3|]. split; [exact H4|exact H5].
Defined.

Lemma runner_unparsable_artifact_witness :
  quiet (pending_world no_faults) ∧
  returncode (sample_result 0 "") = 0 ∧
  sample_load "" = Raise (Exception "Expecting value: line 1 column 1 (char 0)") ∧
  let out := run_bias_fairness_evaluation (sample_env 0 "" (Some "")) 1
               sample_config_path "eval_1_1000" "acme" (pending_world no_faults) in
  out.1 = Ok tt ∧
  db out.2 !! ("acme", "eval_1_1000") = Some (with_status "failed" JNull pending_record) ∧
  redis out.2 !! 1
  = Some (JDict [("status", JStr "failed");
                 ("eval_id", JStr "eval_1_1000");
                 ("error", JStr "Expecting value: line 1 column 1 (char 0)");
                 ("message",
                  JStr "Evaluation failed: Expecting value: line 1 column 1 (char 0)")]) ∧
  db_writes out.2
  = [("acme", "eval_1_1000", "running"); ("acme", "eval_1_1000", "failed")].
Proof.
  assert (Hq : quiet (pending_world no_faults)) by (intros s n; reflexivity).
  split; [exact Hq|]. split; [reflexivity|]. split; [reflexivity|].
  apply (runner_unparsable_artifact (sample_env 0 "" (Some "")) 1 sample_config_path
           "eval_1_1000" "acme" (pending_world no_faults) pending_record
           (sample_result 0 "")
           (<["/app/BiasAndFairnessModule/artifacts/clean_results.json" := ""]> ∅) ""
           (Exception "Expecting value: line 1 column 1 (char 0)")).
  - exact Hq.
  - vm_compute; reflexivity.
  - vm_compute; reflexivity.
  - reflexivity.
  - vm_compute; reflexivity.
  - reflexivity.
Defined.

Lemma delete_is_not_repeatable_witness :
  quiet_sys DB (pending_world no_faults) ∧
  let out1 := delete_bias_fairness_evaluation_controller "eval_1_1000" "acme"
                (pending_world no_faults) in
  let out2 := delete_bias_fairness_evaluation_controller "eval_1_1000" "acme" out1.2 in
  out2.1 = Raise (HTTPException 404 "Evaluation with ID eval_1_1000 not found") ∧
  db out2.2 = db out1.2 ∧
  db out1.2 !! ("acme", "eval_1_1000") = None.
Proof.
  assert (Hq : quiet_sys DB (pending_world no_faults)) by (intros n; reflexivity).
  split; [exact Hq|].
  exact (delete_is_not_repeatable "eval_1_1000" "acme" (pending_world no_faults) Hq).
Defined.


Lemma lost_payload_is_never_polled_witness :
  quiet_sys DB (pending_world (redis_down_for 1)) ∧
  faults (pending_world (redis_down_for 1)) Redis 0 = Some "redis unavailable" ∧
  faults (pending_world (redis_down_for 1)) Redis 1 = None ∧
  redis (pending_world (redis_down_for 1)) !! 1 = None ∧
  let out := run_bias_fairness_evaluation (sample_env 0 "" (Some sample_artifact)) 1
               sample_config_path "eval_1_1000" "acme" (pending_world (redis_down_for 1)) in
  out.1 = Ok tt ∧
  (∃ t, (t = "completed" ∨ t = "failed") ∧
        db_writes out.2
        = ([] ++ [("acme", "eval_1_1000", "running"); ("acme", "eval_1_1000", t)])%list) ∧
  printed out.2
  = ([] ++ [("Failed to update job status: " ++ "redis unavailable")%string])%list ∧
  (get_upload_status 1 "acme" out.2).1 = Ok (Response 204).
Proof.
  assert (HD : quiet_sys DB (pending_world (redis_down_for 1))) by (intros n; reflexivity).
  split; [exact HD|]. split; [reflexivity|]. split; [reflexivity|]. split; [reflexivity|].
  exact (lost_payload_is_never_polled (sample_env 0 "" (Some sample_artifact)) 1
           sample_config_path "eval_1_1000" "acme" (pending_world (redis_down_for 1))
           "redis unavailable" "acme" HD eq_refl eq_refl eq_refl).
Defined.
